(** * Session / profile synchronisation of [AuthProvider]

    A shallow embedding of the authentication context of the mobile client
    (the [AuthProvider] component: boot effect, auth-change listener,
    [fetchUserProfileWithRetry], [fetchUserProfile], [signIn], [signUp],
    [signOut], [setCurrentOnboardingData]).

    Every [async] function is a value of [Task]: a tree of synchronous
    effects ([Do]) and suspension points ([Await]).  The collaborators
    (Supabase auth, the [profiles] table, timers) are a scripted [World]
    that hands out the answers of the awaited calls.  A task whose awaited
    call has no answer yet is [Blocked]; it can be resumed later, from
    whatever the React state has become in the meantime.

    A task is one call of one function.  The provider as a whole is a
    [Component]: the cells, and the threads in flight.  There a change of
    [pendingProfile] also re-runs the mount effect, whose dependency it is,
    and so adds a session check to the threads. *)

From Stdlib Require Import String List ZArith Bool Lia.
Import ListNotations.
Local Open Scope string_scope.
Local Open Scope list_scope.

(** ** Data *)

(** Errors travelling through [throw] / [catch].  [AuthError] and
    [StoreError] are the [error] members of the Supabase answers;
    [JsError] is [new Error(message)]. *)
Inductive Err : Type :=
| AuthError (message : string)
| StoreError (message : string)
| JsError (message : string).

Definition err_message (e : Err) : string :=
  match e with
  | AuthError m | StoreError m | JsError m => m
  end.

(** A row of the [profiles] table, as inserted and as read back
    ([clan] is a nullable column). *)
Record ProfileRow : Type := mkRow {
  row_id : string;
  row_name : string;
  row_clan : option string;
  row_total_days_completed : Z
}.

(** The [User] of the view layer. *)
Record User : Type := mkUser {
  id : string;
  name : string;
  email : string;
  clan : option string;
  totalDaysCompleted : Z
}.

(** [Partial<User>]: a key that is absent is [None]. *)
Record PartialUser : Type := mkPartial {
  p_id : option string;
  p_name : option string;
  p_email : option string;
  p_clan : option string;
  p_totalDaysCompleted : option Z
}.

Record AuthUser : Type := mkAuthUser { auth_id : string }.
Record Session : Type := mkSession { session_user : AuthUser }.
Record Pending : Type := mkPending { pending_name : string }.

Inductive AuthChangeEvent : Type :=
| INITIAL_SESSION | SIGNED_IN | SIGNED_OUT | TOKEN_REFRESHED | USER_UPDATED.

Definition is_signed_in (ev : AuthChangeEvent) : bool :=
  match ev with SIGNED_IN => true | _ => false end.

(** The three [useState] cells of [AuthProvider]. *)
Record State : Type := mkState {
  user : option User;
  isLoading : bool;
  pendingProfile : option Pending
}.

(** [useState(null)], [useState(true)], [useState(null)]. *)
Definition initialState : State := mkState None true None.

(** ** Calls to the collaborators and their answers *)

Inductive Call : Type :=
| GetSession
| SignInWithPassword (email password : string)
| AuthSignUp (email password : string)
| AuthSignOut
| ProfilesInsert (row : ProfileRow)
| ProfilesSelect (userId : string)
| ProfilesUpdateClan (clan : string) (userId : string)
| Delay (ms : Z).

(** What each awaited call resolves to: [{ data, error }] pairs keep the
    destructured members the code reads. *)
Definition resp (c : Call) : Type :=
  match c with
  | GetSession => option Session
  | SignInWithPassword _ _ => option Err
  | AuthSignUp _ _ => (option AuthUser * option Err)%type
  | AuthSignOut => option Err
  | ProfilesInsert _ => option Err
  | ProfilesSelect _ => (option ProfileRow * option Err)%type
  | ProfilesUpdateClan _ _ => option Err
  | Delay _ => unit
  end.

(** Synchronous effects. *)
Inductive Op : Type :=
| SetUser (u : option User)
| UpdateUser (f : option User -> option User)
| SetIsLoading (b : bool)
| SetPendingProfile (p : option Pending)
| ConsoleError (label : string) (e : Err)
| RouterReplace (route : string).

(** ** Tasks *)

Inductive Task (A : Type) : Type :=
| Ret (a : A)
| Throw (e : Err)
| Do (op : Op) (k : Task A)
| Await (c : Call) (k : resp c -> Task A).

Arguments Ret {A} a.
Arguments Throw {A} e.
Arguments Do {A} op k.
Arguments Await {A} c k.

Fixpoint bind {A B : Type} (t : Task A) (f : A -> Task B) : Task B :=
  match t with
  | Ret a => f a
  | Throw e => Throw e
  | Do op k => Do op (bind k f)
  | Await c k => Await c (fun r => bind (k r) f)
  end.

(** [try { t } catch (error) { h error }] *)
Fixpoint try_catch {A : Type} (t : Task A) (h : Err -> Task A) : Task A :=
  match t with
  | Ret a => Ret a
  | Throw e => h e
  | Do op k => Do op (try_catch k h)
  | Await c k => Await c (fun r => try_catch (k r) h)
  end.

(** [try { t } finally { fin }] *)
Fixpoint try_finally {A : Type} (t : Task A) (fin : Task unit) : Task A :=
  match t with
  | Ret a => bind fin (fun _ => Ret a)
  | Throw e => bind fin (fun _ => Throw e)
  | Do op k => Do op (try_finally k fin)
  | Await c k => Await c (fun r => try_finally (k r) fin)
  end.

Definition exec (op : Op) : Task unit := Do op (Ret tt).
Definition await (c : Call) : Task (resp c) := Await c (fun r => Ret r).

Declare Scope task_scope.
Delimit Scope task_scope with task.
Notation "x <- t ;; k" := (bind t (fun x => k))
  (at level 61, t at next level, right associativity) : task_scope.
Notation "t ;; k" := (bind t (fun _ => k))
  (at level 61, right associativity) : task_scope.
Local Open Scope task_scope.

(** ** The component *)

(** The object handed to [setUser] by both fetchers. *)
Definition toUser (data : ProfileRow) : User :=
  {| id := row_id data;
     name := row_name data;
     email := "";
     clan := row_clan data;
     totalDaysCompleted := row_total_days_completed data |}.

(** One turn of the [for] loop of [fetchUserProfileWithRetry]:
    [Some b] is [return b], [None] falls through to the next turn.
    The label is in single quotes in the source, so [${i + 1}] is not
    interpolated. *)
Definition retryAttempt (userId : string) (i : nat) : Task (option bool) :=
  try_catch
    (r <- await (ProfilesSelect userId) ;;
     match snd r with
     | Some error => Throw error
     | None =>
         match fst r with
         | Some data =>
             exec (SetUser (Some (toUser data))) ;;
             exec (SetIsLoading false) ;;
             Ret (Some true)
         | None =>
             await (Delay 500) ;;
             Ret None
         end
     end)
    (fun error =>
       exec (ConsoleError "Error fetching user profile (attempt ${i + 1}):" error) ;;
       await (Delay 500) ;;
       Ret None).

(** [for (let i = ...; i < retries; i++) { ... }] with [left] turns to
    go, followed by the two statements after the loop. *)
Fixpoint retryFrom (userId : string) (left i : nat) : Task bool :=
  match left with
  | O =>
      exec (SetIsLoading false) ;;
      Ret false
  | S left' =>
      r <- retryAttempt userId i ;;
      match r with
      | Some b => Ret b
      | None => retryFrom userId left' (S i)
      end
  end.

Definition fetchUserProfileWithRetry (userId : string) (retries : nat) : Task bool :=
  retryFrom userId retries 0.

(** The default value of the parameter [retries]. *)
Definition defaultRetries : nat := 5.

Definition fetchUserProfile (userId : string) : Task unit :=
  try_finally
    (try_catch
       (r <- await (ProfilesSelect userId) ;;
        match snd r with
        | Some error => Throw error
        | None =>
            match fst r with
            | Some data => exec (SetUser (Some (toUser data)))
            | None => Ret tt
            end
        end)
       (fun error => exec (ConsoleError "Error fetching user profile:" error)))
    (exec (SetIsLoading false)).

(** The [getSession().then(...)] of the mount effect. *)
Definition boot : Task unit :=
  session <- await GetSession ;;
  match session with
  | Some s => fetchUserProfile (auth_id (session_user s))
  | None => exec (SetIsLoading false)
  end.

(** The payload of the insert into [profiles]. *)
Definition newProfileRow (userId : string) (p : Pending) : ProfileRow :=
  {| row_id := userId;
     row_name := pending_name p;
     row_clan := Some "onotka";
     row_total_days_completed := 0 |}.

(** The callback given to [onAuthStateChange].  The effect depends on
    [pendingProfile] and subscribes again when it changes, so the callback
    in force closes over the current value of that cell. *)
Definition onAuthStateChange (pendingProfile : option Pending)
    (event : AuthChangeEvent) (session : option Session) : Task unit :=
  match session with
  | Some s =>
      let userId := auth_id (session_user s) in
      match pendingProfile, is_signed_in event with
      | Some pending, true =>
          try_catch
            (profileError <- await (ProfilesInsert (newProfileRow userId pending)) ;;
             match profileError with
             | Some e => Throw e
             | None =>
                 exec (SetPendingProfile None) ;;
                 fetchUserProfileWithRetry userId defaultRetries ;;
                 Ret tt
             end)
            (fun error =>
               exec (ConsoleError "Error creating profile:" error) ;;
               exec (SetIsLoading false))
      | _, _ =>
          fetchUserProfileWithRetry userId defaultRetries ;;
          Ret tt
      end
  | None =>
      exec (SetUser None) ;;
      exec (SetIsLoading false)
  end.

Definition signIn (email password : string) : Task unit :=
  try_finally
    (try_catch
       (exec (SetIsLoading true) ;;
        error <- await (SignInWithPassword email password) ;;
        match error with
        | Some e => Throw e
        | None => exec (RouterReplace "/(app)/(tabs)/totem")
        end)
       (fun error =>
          exec (ConsoleError "Sign in error:" error) ;;
          Throw error))
    (exec (SetIsLoading false)).

Definition signUp (name email password : string) : Task unit :=
  try_catch
    (exec (SetIsLoading true) ;;
     exec (SetPendingProfile (Some (mkPending name))) ;;
     r <- await (AuthSignUp email password) ;;
     match snd r with
     | Some signUpError =>
         if String.eqb (err_message signUpError) "User already registered"
         then Throw (JsError "User already registered")
         else Throw signUpError
     | None =>
         match fst r with
         | None => Throw (JsError "No user returned after signup")
         | Some _ => Ret tt
         end
     end)
    (fun error =>
       exec (ConsoleError "Sign up error:" error) ;;
       Throw error).

Definition signOut : Task unit :=
  try_catch
    (error <- await AuthSignOut ;;
     match error with
     | Some e => Throw e
     | None =>
         exec (SetUser None) ;;
         exec (RouterReplace "/(auth)/login")
     end)
    (fun error => exec (ConsoleError "Sign out error:" error)).

Definition or_else {A : Type} (o : option A) (d : A) : A :=
  match o with Some a => a | None => d end.

(** [{ ...prev, ...data }] *)
Definition spread (prev : User) (data : PartialUser) : User :=
  {| id := or_else (p_id data) (id prev);
     name := or_else (p_name data) (name prev);
     email := or_else (p_email data) (email prev);
     clan := match p_clan data with Some c => Some c | None => clan prev end;
     totalDaysCompleted := or_else (p_totalDaysCompleted data) (totalDaysCompleted prev) |}.

(** JavaScript truthiness of an optional string. *)
Definition truthy (s : option string) : bool :=
  match s with
  | Some s => negb (String.eqb s "")
  | None => false
  end.

(** [setCurrentOnboardingData], closing over the [user] of the render
    that created it; [setUser(prev => ...)] reads the cell afresh. *)
Definition setCurrentOnboardingData (user : option User) (data : PartialUser) : Task unit :=
  match user, p_clan data with
  | Some u, Some c =>
      if negb (truthy (Some (id u))) || negb (truthy (Some c)) then Ret tt
      else
        try_catch
          (error <- await (ProfilesUpdateClan c (id u)) ;;
           match error with
           | Some e => Throw e
           | None =>
               exec (UpdateUser (fun prev =>
                       match prev with
                       | Some p => Some (spread p data)
                       | None => None
                       end))
           end)
          (fun error => exec (ConsoleError "Error updating user data:" error))
  | _, _ => Ret tt
  end.

(** ** Running a task against the collaborators *)

(** The answers the collaborators will give, per kind of call and in the
    order the calls are made; [timers] is the number of timeouts that
    fire.  A call whose queue is empty has not been answered yet. *)
Record World : Type := mkWorld {
  sessions : list (option Session);
  signIns : list (option Err);
  signUps : list (option AuthUser * option Err);
  signOuts : list (option Err);
  inserts : list (option Err);
  selects : list (option ProfileRow * option Err);
  updates : list (option Err);
  timers : nat
}.

Definition quiet : World := mkWorld [] [] [] [] [] [] [] 0.

(** Field updates of [World]. *)
Definition with_sessions (q : list (option Session)) (w : World) : World :=
  mkWorld q (signIns w) (signUps w) (signOuts w) (inserts w) (selects w) (updates w) (timers w).
Definition with_signIns (q : list (option Err)) (w : World) : World :=
  mkWorld (sessions w) q (signUps w) (signOuts w) (inserts w) (selects w) (updates w) (timers w).
Definition with_signUps (q : list (option AuthUser * option Err)) (w : World) : World :=
  mkWorld (sessions w) (signIns w) q (signOuts w) (inserts w) (selects w) (updates w) (timers w).
Definition with_signOuts (q : list (option Err)) (w : World) : World :=
  mkWorld (sessions w) (signIns w) (signUps w) q (inserts w) (selects w) (updates w) (timers w).
Definition with_inserts (q : list (option Err)) (w : World) : World :=
  mkWorld (sessions w) (signIns w) (signUps w) (signOuts w) q (selects w) (updates w) (timers w).
Definition with_selects (q : list (option ProfileRow * option Err)) (w : World) : World :=
  mkWorld (sessions w) (signIns w) (signUps w) (signOuts w) (inserts w) q (updates w) (timers w).
Definition with_updates (q : list (option Err)) (w : World) : World :=
  mkWorld (sessions w) (signIns w) (signUps w) (signOuts w) (inserts w) (selects w) q (timers w).
Definition with_timers (n : nat) (w : World) : World :=
  mkWorld (sessions w) (signIns w) (signUps w) (signOuts w) (inserts w) (selects w) (updates w) n.

(** Take the next answer of a queue. *)
Definition pop {R : Type} (q : list R) (put : list R -> World) : option (R * World) :=
  match q with
  | r :: q' => Some (r, put q')
  | [] => None
  end.

Definition answer (c : Call) (w : World) : option (resp c * World) :=
  match c return option (resp c * World) with
  | GetSession => pop (sessions w) (fun q => with_sessions q w)
  | SignInWithPassword _ _ => pop (signIns w) (fun q => with_signIns q w)
  | AuthSignUp _ _ => pop (signUps w) (fun q => with_signUps q w)
  | AuthSignOut => pop (signOuts w) (fun q => with_signOuts q w)
  | ProfilesInsert _ => pop (inserts w) (fun q => with_inserts q w)
  | ProfilesSelect _ => pop (selects w) (fun q => with_selects q w)
  | ProfilesUpdateClan _ _ => pop (updates w) (fun q => with_updates q w)
  | Delay _ =>
      match timers w with
      | S n => Some (tt, with_timers n w)
      | O => None
      end
  end.

(** What has been observed of a run, oldest first.  A call is recorded
    when its answer is delivered. *)
Inductive Event : Type :=
| Called (c : Call)
| Logged (label : string) (e : Err)
| Navigated (route : string).

Definition apply (op : Op) (s : State) : State :=
  match op with
  | SetUser u => mkState u (isLoading s) (pendingProfile s)
  | UpdateUser f => mkState (f (user s)) (isLoading s) (pendingProfile s)
  | SetIsLoading b => mkState (user s) b (pendingProfile s)
  | SetPendingProfile p => mkState (user s) (isLoading s) p
  | ConsoleError _ _ => s
  | RouterReplace _ => s
  end.

Definition observe (op : Op) : list Event :=
  match op with
  | ConsoleError l e => [Logged l e]
  | RouterReplace r => [Navigated r]
  | _ => []
  end.

Inductive Outcome (A : Type) : Type :=
| Returned (a : A)
| Threw (e : Err).
Arguments Returned {A} a.
Arguments Threw {A} e.

(** A run either finishes, or stops at an [Await] whose answer has not
    arrived; the suspended task is kept so that it can be resumed. *)
Inductive Result (A : Type) : Type :=
| Done (o : Outcome A) (s : State) (w : World) (tr : list Event)
| Blocked (t : Task A) (s : State) (w : World) (tr : list Event).
Arguments Done {A} o s w tr.
Arguments Blocked {A} t s w tr.

Definition emit {A : Type} (evs : list Event) (r : Result A) : Result A :=
  match r with
  | Done o s w tr => Done o s w (evs ++ tr)
  | Blocked t s w tr => Blocked t s w (evs ++ tr)
  end.

Fixpoint run {A : Type} (t : Task A) (w : World) (s : State) : Result A :=
  match t with
  | Ret a => Done (Returned a) s w []
  | Throw e => Done (Threw e) s w []
  | Do op k => emit (observe op) (run k w (apply op s))
  | Await c k =>
      match answer c w with
      | Some (r, w') => emit [Called c] (run (k r) w' s)
      | None => Blocked (Await c k) s w []
      end
  end.

Definition final_state {A : Type} (r : Result A) : State :=
  match r with Done _ s _ _ | Blocked _ s _ _ => s end.

Definition trace_of {A : Type} (r : Result A) : list Event :=
  match r with Done _ _ _ tr | Blocked _ _ _ tr => tr end.

Definition world_of {A : Type} (r : Result A) : World :=
  match r with Done _ _ w _ | Blocked _ _ w _ => w end.

Definition outcome_of {A : Type} (r : Result A) : option (Outcome A) :=
  match r with Done o _ _ _ => Some o | Blocked _ _ _ _ => None end.

Definition is_select (e : Event) : bool :=
  match e with Called (ProfilesSelect _) => true | _ => false end.

Definition is_log (e : Event) : bool :=
  match e with Logged _ _ => true | _ => false end.

(** Number of point lookups in a trace. *)
Definition lookups (tr : list Event) : nat := length (filter is_select tr).

(** A lookup that yields no record: an error, or neither data nor error. *)
Definition is_miss (r : option ProfileRow * option Err) : bool :=
  match snd r, fst r with
  | Some _, _ => true
  | None, None => true
  | None, Some _ => false
  end.

(** A store whose select queue is [q] and whose timers always fire
    ([n] of them). *)
Definition store (q : list (option ProfileRow * option Err)) (n : nat) : World :=
  mkWorld [] [] [] [] [] q [] n.

(** What one unsuccessful turn of the retry loop leaves in the trace. *)
Definition miss_events (userId : string) (r : option ProfileRow * option Err) : list Event :=
  Called (ProfilesSelect userId)
  :: match snd r with
     | Some e => [Logged "Error fetching user profile (attempt ${i + 1}):" e]
     | None => []
     end
  ++ [Called (Delay 500)].

(** The answer "no record, no error". *)
Definition not_found : option ProfileRow * option Err := (None, None).
Definition found (data : ProfileRow) : option ProfileRow * option Err := (Some data, None).
Definition failed (e : Err) : option ProfileRow * option Err := (None, Some e).

Definition u1_row : ProfileRow := mkRow "u1" "Bob" (Some "ekloa") 3.

(** The calls and navigations of a trace, console output left out. *)
Definition calls (tr : list Event) : list Event :=
  filter (fun e => negb (is_log e)) tr.

(** The same attempts, every one answered "no record, no error". *)
Definition all_not_found (q : list (option ProfileRow * option Err))
  : list (option ProfileRow * option Err) :=
  map (fun _ => not_found) q.

(** Resume a suspended run once further answers [w] have arrived, from
    the React state [s] left by whatever ran in between. *)
Definition resume {A : Type} (r : Result A) (w : World) (s : State) : Result A :=
  match r with
  | Blocked t _ _ _ => run t w s
  | Done _ _ _ _ => r
  end.

(** A notification delivered while the React state is [s]: the listener
    subscribed by the latest render runs. *)
Definition deliver (event : AuthChangeEvent) (session : option Session) (s : State) : Task unit :=
  onAuthStateChange (pendingProfile s) event session.

(** [setCurrentOnboardingData] as handed out by the render of state [s]. *)
Definition updateClan (data : PartialUser) (s : State) : Task unit :=
  setCurrentOnboardingData (user s) data.

Definition only_clan (c : string) : PartialUser :=
  mkPartial None None None (Some c) None.

Definition session_of (userId : string) : Session := mkSession (mkAuthUser userId).

(** A state in which [u1_row] has been reconciled. *)
Definition settled_u1 : State := mkState (Some (toUser u1_row)) false None.

(** A world in which only the identity service answers. *)
Definition auth_world (ins : list (option Err)) (ups : list (option AuthUser * option Err))
    (outs : list (option Err)) : World :=
  mkWorld [] ins ups outs [] [] [] 0.

(** The rows handed to [insert] along a trace. *)
Definition inserted (tr : list Event) : list ProfileRow :=
  flat_map (fun e => match e with Called (ProfilesInsert row) => [row] | _ => [] end) tr.

(** What a run of one turn of the retry loop, started (or resumed) in
    world [w] and state [s], can end in. *)
Definition attempt_post (w : World) (s : State) (r : Result (option bool)) : Prop :=
  match r with
  | Done (Returned (Some b)) s' _ _ =>
      b = true /\
      exists data, In (found data) (selects w) /\
                   s' = mkState (Some (toUser data)) false (pendingProfile s)
  | Done (Returned None) s' w' _ => s' = s /\ incl (selects w') (selects w)
  | Done (Threw _) _ _ _ => False
  | Blocked _ s' _ _ => s' = s
  end.

(** The same for the whole loop: it returns [true] with the user set from
    a record the store served, or [false] with the user untouched; it never
    throws; while it is suspended it has changed nothing. *)
Definition loop_post (w : World) (s : State) (r : Result bool) : Prop :=
  match r with
  | Done (Returned true) s' _ _ =>
      exists data, In (found data) (selects w) /\
                   s' = mkState (Some (toUser data)) false (pendingProfile s)
  | Done (Returned false) s' _ _ => s' = mkState (user s) false (pendingProfile s)
  | Done (Threw _) _ _ _ => False
  | Blocked _ s' _ _ => s' = s
  end.

(** A suspended task that waits for the answer of a point lookup. *)
Definition awaits_select {A : Type} (t : Task A) : bool :=
  match t with
  | Await (ProfilesSelect _) _ => true
  | _ => false
  end.

(** The lookups a run has issued: those answered, and the one it is
    suspended at, if any. *)
Definition issued_lookups {A : Type} (r : Result A) : nat :=
  lookups (trace_of r) +
  match r with
  | Blocked t _ _ _ => if awaits_select t then 1 else 0
  | Done _ _ _ _ => 0
  end.

(** The time a run has spent in [delay], in milliseconds. *)
Definition waited (tr : list Event) : Z :=
  fold_right (fun e acc => match e with Called (Delay ms) => ms + acc | _ => acc end)%Z 0%Z tr.

Definition u2_row : ProfileRow := mkRow "u2" "Alice" (Some "onotka") 0.

(** ** The provider as a component

    [pendingProfile] is the dependency of the mount effect
    ([useEffect(..., [pendingProfile])]).  A [setPendingProfile] that
    changes the cell therefore does more than write it: after the render
    that follows, the effect runs again and asks for the session once more
    ([boot], the [getSession().then(...)] of the effect), beside whatever
    was already in flight.  [{ name }] is a fresh object, never identical
    to the previous value; [null] changes the cell only when something was
    staged. *)
Definition changes_stage (op : Op) (s : State) : bool :=
  match op with
  | SetPendingProfile (Some _) => true
  | SetPendingProfile None =>
      match pendingProfile s with
      | Some _ => true
      | None => false
      end
  | _ => false
  end.

(** The number of times a run of [t] changes the stage, hence the number
    of session checks it sets off.  (No stretch of the code writes the
    stage twice, so counting writes and counting renders agree.) *)
Fixpoint restages {A : Type} (t : Task A) (w : World) (s : State) : nat :=
  match t with
  | Ret _ => 0
  | Throw _ => 0
  | Do op k => (if changes_stage op s then 1 else 0) + restages k w (apply op s)
  | Await c k =>
      match answer c w with
      | Some (r, w') => restages (k r) w' s
      | None => 0
      end
  end.

(** What is in flight in the provider: handlers, listener runs and session
    checks, each suspended at a call or ended. *)
Inductive Thread : Type :=
| Suspended (t : Task unit)
| Ended (o : Outcome unit).

Definition thread_of (r : Result unit) : Thread :=
  match r with
  | Done o _ _ _ => Ended o
  | Blocked t _ _ _ => Suspended t
  end.

Record Component : Type := mkComponent {
  cells : State;
  threads : list Thread;
  seen : list Event
}.

(** A provider with nothing in flight. *)
Definition idle (s : State) : Component := mkComponent s [] [].

(** The provider right after mounting: the effect has asked for the
    session. *)
Definition mounted : Component := mkComponent initialState [Suspended boot] [].

(** A handler (or the listener) is called.  [w] holds the answers that
    reach this thread during the call; the thread runs as far as they
    carry it, and every change of the stage adds a session check. *)
Definition start (t : Task unit) (w : World) (c : Component) : Component :=
  let r := run t w (cells c) in
  mkComponent (final_state r)
    (threads c ++ thread_of r :: repeat (Suspended boot) (restages t w (cells c)))
    (seen c ++ trace_of r).

Fixpoint put {X : Type} (i : nat) (x : X) (l : list X) : list X :=
  match l, i with
  | [], _ => []
  | _ :: l', O => x :: l'
  | y :: l', S i' => y :: put i' x l'
  end.

(** Thread [i] is resumed with the answers [w] that have arrived for it. *)
Definition turn (i : nat) (w : World) (c : Component) : Component :=
  match nth_error (threads c) i with
  | Some (Suspended t) =>
      let r := run t w (cells c) in
      mkComponent (final_state r)
        (put i (thread_of r) (threads c)
         ++ repeat (Suspended boot) (restages t w (cells c)))
        (seen c ++ trace_of r)
  | _ => c
  end.

(** A notification reaches the listener of the current render. *)
Definition notify (event : AuthChangeEvent) (session : option Session)
    (w : World) (c : Component) : Component :=
  start (deliver event session (cells c)) w c.

(** Any sequence of turns. *)
Fixpoint play (sched : list (nat * World)) (c : Component) : Component :=
  match sched with
  | [] => c
  | (i, w) :: sched' => play sched' (turn i w c)
  end.

(** The call a suspended thread waits for. *)
Definition awaited (th : Thread) : option Call :=
  match th with
  | Suspended (Await c _) => Some c
  | _ => None
  end.

(** A task that never writes the stage. *)
Fixpoint stage_free {A : Type} (t : Task A) : Prop :=
  match t with
  | Ret _ => True
  | Throw _ => True
  | Do op k =>
      match op with
      | SetPendingProfile _ => False
      | _ => stage_free k
      end
  | Await c k => forall r, stage_free (k r)
  end.

Definition thread_stage_free (th : Thread) : Prop :=
  match th with
  | Suspended t => stage_free t
  | Ended _ => True
  end.

(** ** The screens

    [PathsScreen] and [ClanSelectionScreen] keep their own [useState]
    cells and make their own calls.  Their handlers are trees of the same
    shape as [Task], over the cells and calls of the screen at hand. *)
Module Screen.

Section Handlers.
Variable St : Type.
Variable Call : Type.
Variable resp : Call -> Type.

Inductive Proc (A : Type) : Type :=
| Ret (a : A)
| Throw (e : Err)
| Modify (f : St -> St) (k : Proc A)
| Log (label : string) (e : Err) (k : Proc A)
| Push (pathname : string) (params : list (string * string)) (k : Proc A)
| Await (c : Call) (k : resp c -> Proc A).

Arguments Ret {A} a.
Arguments Throw {A} e.
Arguments Modify {A} f k.
Arguments Log {A} label e k.
Arguments Push {A} pathname params k.
Arguments Await {A} c k.

Fixpoint bind {A B : Type} (t : Proc A) (f : A -> Proc B) : Proc B :=
  match t with
  | Ret a => f a
  | Throw e => Throw e
  | Modify g k => Modify g (bind k f)
  | Log l e k => Log l e (bind k f)
  | Push p q k => Push p q (bind k f)
  | Await c k => Await c (fun r => bind (k r) f)
  end.

Fixpoint try_catch {A : Type} (t : Proc A) (h : Err -> Proc A) : Proc A :=
  match t with
  | Ret a => Ret a
  | Throw e => h e
  | Modify g k => Modify g (try_catch k h)
  | Log l e k => Log l e (try_catch k h)
  | Push p q k => Push p q (try_catch k h)
  | Await c k => Await c (fun r => try_catch (k r) h)
  end.

Fixpoint try_finally {A : Type} (t : Proc A) (fin : Proc unit) : Proc A :=
  match t with
  | Ret a => bind fin (fun _ => Ret a)
  | Throw e => bind fin (fun _ => Throw e)
  | Modify g k => Modify g (try_finally k fin)
  | Log l e k => Log l e (try_finally k fin)
  | Push p q k => Push p q (try_finally k fin)
  | Await c k => Await c (fun r => try_finally (k r) fin)
  end.

Definition modify (f : St -> St) : Proc unit := Modify f (Ret tt).
Definition log (label : string) (e : Err) : Proc unit := Log label e (Ret tt).
Definition push (pathname : string) (params : list (string * string)) : Proc unit :=
  Push pathname params (Ret tt).
Definition await (c : Call) : Proc (resp c) := Await c (fun r => Ret r).

(** What a handler lets the outside see, oldest first. *)
Inductive Ev : Type :=
| Asked (c : Call)
| Printed (label : string) (e : Err)
| Pushed (pathname : string) (params : list (string * string)).

Inductive Res (A : Type) : Type :=
| Finished (o : Outcome A) (s : St) (tr : list Ev)
| Waiting (t : Proc A) (s : St) (tr : list Ev).
Arguments Finished {A} o s tr.
Arguments Waiting {A} t s tr.

Definition note {A : Type} (evs : list Ev) (r : Res A) : Res A :=
  match r with
  | Finished o s tr => Finished o s (evs ++ tr)
  | Waiting t s tr => Waiting t s (evs ++ tr)
  end.

(** The backend answers a call with [oracle c], or has not answered it
    yet ([None]).  The handlers of the screens await at most once. *)
Fixpoint run {A : Type} (t : Proc A) (oracle : forall c, option (resp c)) (s : St) : Res A :=
  match t with
  | Ret a => Finished (Returned a) s []
  | Throw e => Finished (Threw e) s []
  | Modify f k => run k oracle (f s)
  | Log l e k => note [Printed l e] (run k oracle s)
  | Push p q k => note [Pushed p q] (run k oracle s)
  | Await c k =>
      match oracle c with
      | Some r => note [Asked c] (run (k r) oracle s)
      | None => Waiting (Await c k) s []
      end
  end.

Definition state_of {A : Type} (r : Res A) : St :=
  match r with Finished _ s _ | Waiting _ s _ => s end.

Definition events_of {A : Type} (r : Res A) : list Ev :=
  match r with Finished _ _ tr | Waiting _ _ tr => tr end.

Definition result_of {A : Type} (r : Res A) : option (Outcome A) :=
  match r with Finished o _ _ => Some o | Waiting _ _ _ => None end.

Definition pushes (tr : list Ev) : list (string * list (string * string)) :=
  flat_map (fun e => match e with Pushed p q => [(p, q)] | _ => [] end) tr.

Definition asked (tr : list Ev) : list Call :=
  flat_map (fun e => match e with Asked c => [c] | _ => [] end) tr.
End Handlers.

Arguments Ret {St Call resp A} a.
Arguments Throw {St Call resp A} e.
Arguments Modify {St Call resp A} f k.
Arguments Log {St Call resp A} label e k.
Arguments Push {St Call resp A} pathname params k.
Arguments Await {St Call resp A} c k.
Arguments bind {St Call resp A B} t f.
Arguments try_catch {St Call resp A} t h.
Arguments try_finally {St Call resp A} t fin.
Arguments modify {St Call resp} f.
Arguments log {St Call resp} label e.
Arguments push {St Call resp} pathname params.
Arguments await {St Call resp} c.
Arguments Asked {Call} c.
Arguments Printed {Call} label e.
Arguments Pushed {Call} pathname params.
Arguments Finished {St Call resp A} o s tr.
Arguments Waiting {St Call resp A} t s tr.
Arguments run {St Call resp A} t oracle s.
Arguments state_of {St Call resp A} r.
Arguments events_of {St Call resp A} r.
Arguments result_of {St Call resp A} r.
Arguments pushes {Call} tr.
Arguments asked {Call} tr.

End Screen.

(** JSON values, as [JSON.parse] gives them.  Numbers keep their text. *)
#[warnings="-register-all"]
Inductive JValue : Type :=
| JNull
| JBool (b : bool)
| JNumber (text : string)
| JString (s : string)
| JArray (items : list JValue)
| JObject (members : list (string * JValue)).

(** What rendering can throw: [JSON.parse] on a bad text, [.map] on a
    value that has none, React on a child it cannot render. *)
Inductive RenderError : Type :=
| SyntaxError
| TypeError
| InvalidChild.

(** What React accepts as a child of [<Text>]: strings and numbers are
    shown, [null] and booleans show nothing, arrays are rendered item by
    item, objects are refused. *)
Fixpoint valid_child (v : JValue) : bool :=
  match v with
  | JObject _ => false
  | JArray items => forallb valid_child items
  | _ => true
  end.

(** [s || d] on strings. *)
Definition or_default (s d : string) : string :=
if String.eqb s "" then d else s.

Module ProgramCard.

(** The [program] prop.  [focus] is declared [string[] | string]; it
    holds whatever the caller computed. *)
Record Program : Type := mkProgram {
  id : string;
  title : string;
  description : string;
  duration : Z;
  focus : JValue;
  imageUrl : string
}.

(** [parsedFocus]; [parse] is [JSON.parse], [None] when it throws. *)
Definition parsedFocus (parse : string -> option JValue) (program : Program)
  : RenderError + JValue :=
  match focus program with
  | JArray items => inr (JArray items)
  | JString s =>
      match parse (or_default s "[]") with
      | Some v => inr v
      | None => inl SyntaxError
      end
  | _ => inr (JArray [])
  end.

(** The tag badges: [parsedFocus.map(...)], which throws when
    [parsedFocus] has no [map], gives one [<Text>{tag}</Text>] per item,
    and React throws when an item is not a valid child. *)
Definition tagBadges (parse : string -> option JValue) (program : Program)
  : RenderError + list JValue :=
  match parsedFocus parse program with
  | inl e => inl e
  | inr (JArray items) =>
      if forallb valid_child items then inr items else inl InvalidChild
  | inr _ => inl TypeError
  end.

End ProgramCard.

Module PathsScreen.

(** [tags: string | string[]] *)
Inductive Tags : Type :=
| TagList (items : list string)
| TagText (text : string).

(** A row of [programmes], with the columns the screen reads. *)
Record Program : Type := mkProgram {
  id : string;
  nom : string;
  description : string;
  image_url : string;
  duree_jours : Z;
  type : string;
  tags : Tags
}.

Record St : Type := mkSt {
  programs : list Program;
  isLoading : bool;
  error : option string
}.

(** [useState([])], [useState(true)], [useState(null)]. *)
Definition initial : St := mkSt [] true None.

Inductive Call : Type := SelectProgrammes.

Definition resp (c : Call) : Type := (option (list Program) * option Err)%type.

Definition setPrograms (l : list Program) (s : St) : St := mkSt l (isLoading s) (error s).
Definition setIsLoading (b : bool) (s : St) : St := mkSt (programs s) b (error s).
Definition setError (m : option string) (s : St) : St := mkSt (programs s) (isLoading s) m.

Definition fetchPrograms : Screen.Proc St Call resp unit :=
  Screen.try_finally
    (Screen.try_catch
       (Screen.bind (Screen.await SelectProgrammes) (fun r =>
          match snd r with
          | Some e => Screen.Throw e
          | None => Screen.modify (setPrograms (or_else (fst r) []))
          end))
       (fun err =>
          Screen.bind (Screen.log "Error fetching programs:" err) (fun _ =>
          Screen.modify
            (setError (Some "Une erreur est survenue lors du chargement des programmes")))))
    (Screen.modify (setIsLoading false)).

Definition discoveryPrograms (programs : list Program) : list Program :=
  filter (fun p => String.eqb (type p) "Découverte") programs.

Definition premiumPrograms (programs : list Program) : list Program :=
  filter (fun p => String.eqb (type p) "Premium") programs.

Definition handleProgramPress (programId : string) : Screen.Proc St Call resp unit :=
  Screen.push "/(app)/program/[id]" [("id", programId)].

(** [parsedTags]: the array itself, or what [JSON.parse] makes of the
    text, or [[]] when it throws. *)
Definition parsedTags (parse : string -> option JValue) (program : Program) : JValue :=
  match tags program with
  | TagList items => JArray (map JString items)
  | TagText text =>
      match parse text with
      | Some v => v
      | None => JArray []
      end
  end.

(** The [program] prop handed to [ProgramCard]. *)
Definition card (parse : string -> option JValue) (program : Program) : ProgramCard.Program :=
  {| ProgramCard.id := id program;
     ProgramCard.title := nom program;
     ProgramCard.description := description program;
     ProgramCard.duration := duree_jours program;
     ProgramCard.focus := parsedTags parse program;
     ProgramCard.imageUrl := image_url program |}.

Definition renderProgramList (parse : string -> option JValue) (programs : list Program)
  : list ProgramCard.Program :=
  map (card parse) programs.

(** What the screen shows. *)
Inductive View : Type :=
| Spinner
| ErrorText (message : string)
| EmptyText (message : string)
| Sections (discovery premium : list ProgramCard.Program).

Definition render (parse : string -> option JValue) (s : St) : View :=
  if isLoading s then Spinner
  else if truthy (error s) then ErrorText (or_else (error s) "")
  else if Nat.eqb (length (programs s)) 0
       then EmptyText "Aucun programme disponible pour le moment"
  else Sections (renderProgramList parse (discoveryPrograms (programs s)))
                (renderProgramList parse (premiumPrograms (programs s))).

(** The backend as seen by [fetchPrograms]. *)
Definition backend (ans : option (option (list Program) * option Err))
  : forall c : Call, option (resp c) :=
  fun _ => ans.

End PathsScreen.

Module ClanSelectionScreen.

(** [user.id], for the [user] of [useAuth()]. *)
Definition user_id (u : User) : string := id u.

Record Clan : Type := mkClan {
  id : string;
  nom_clan : string;
  tagline : string;
  description : string;
  rituel_entree : string;
  image_url : string;
  couleur_theme : string
}.

Record St : Type := mkSt {
  clans : list Clan;
  selectedClanId : option string;
  isLoading : bool;
  error : option string
}.

(** [useState([])], [useState(null)], [useState(false)], [useState(null)]. *)
Definition initial : St := mkSt [] None false None.

Inductive Call : Type :=
| SelectClans
| UpdateClanId (clan_id : string) (userId : string).

Definition resp (c : Call) : Type :=
  match c with
  | SelectClans => (option (list Clan) * option Err)%type
  | UpdateClanId _ _ => option Err
  end.

Definition setClans (l : list Clan) (s : St) : St :=
  mkSt l (selectedClanId s) (isLoading s) (error s).
Definition setSelectedClanId (c : option string) (s : St) : St :=
  mkSt (clans s) c (isLoading s) (error s).
Definition setIsLoading (b : bool) (s : St) : St :=
  mkSt (clans s) (selectedClanId s) b (error s).
Definition setError (m : option string) (s : St) : St :=
  mkSt (clans s) (selectedClanId s) (isLoading s) m.

Definition fetchClans : Screen.Proc St Call resp unit :=
  Screen.try_catch
    (Screen.bind (Screen.await SelectClans) (fun r =>
       match snd r with
       | Some e => Screen.Throw e
       | None => Screen.modify (setClans (or_else (fst r) []))
       end))
    (fun err =>
       Screen.bind (Screen.log "Error fetching clans:" err) (fun _ =>
       Screen.modify (setError (Some "Erreur lors du chargement des clans")))).

Definition handleSelectClan (clanId : string) : Screen.Proc St Call resp unit :=
  Screen.modify (setSelectedClanId (Some clanId)).

(** [handleNext], closing over the [selectedClanId] and the [user] of the
    render that created it. *)
Definition handleNext (selectedClanId : option string) (user : option User)
  : Screen.Proc St Call resp unit :=
  match selectedClanId, user with
  | Some c, Some u =>
      if negb (truthy (Some c)) then
        Screen.modify (setError (Some "Une erreur est survenue. Veuillez réessayer."))
      else
        Screen.try_finally
          (Screen.try_catch
             (Screen.bind (Screen.modify (setIsLoading true)) (fun _ =>
              Screen.bind (Screen.await (UpdateClanId c (user_id u))) (fun error =>
              match error with
              | Some e => Screen.Throw e
              | None => Screen.push "/(app)/(tabs)/totem" []
              end)))
             (fun err =>
                Screen.bind (Screen.log "Error updating clan:" err) (fun _ =>
                Screen.modify (setError (Some "Erreur lors de la sélection du clan")))))
          (Screen.modify (setIsLoading false))
  | _, _ =>
      Screen.modify (setError (Some "Une erreur est survenue. Veuillez réessayer."))
  end.

(** The handler of the "Continuer" button in the render of state [s]. *)
Definition onContinue (user : option User) (s : St) : Screen.Proc St Call resp unit :=
  handleNext (selectedClanId s) user.

(** [disabled={!selectedClanId || isLoading}] *)
Definition continueDisabled (s : St) : bool :=
  negb (truthy (selectedClanId s)) || isLoading s.

(** [if (error)]: the screen shows the error and the retry button
    instead of the carousel. *)
Definition showsError (s : St) : bool := truthy (error s).

End ClanSelectionScreen.

(** The text of a JSON string literal: [inner] between double quotes. *)
Definition quoted (inner : string) : string :=
  String (Ascii.ascii_of_nat 34) (String.append inner (String (Ascii.ascii_of_nat 34) EmptyString)).

(** A stand-in for [JSON.parse] that knows five texts. *)
Definition parse_sample (text : string) : option JValue :=
  if String.eqb text "[]" then Some (JArray [])
  else if String.eqb text "7" then Some (JNumber "7")
  else if String.eqb text "null" then Some JNull
  else if String.eqb text "[{}]" then Some (JArray [JObject []])
  else if String.eqb text (quoted "force") then Some (JString "force")
  else None.

(** Backends of [ClanSelectionScreen] for the examples: the clans are
    served and the update is answered with [upd]. *)
Definition clan_backend (data : option (list ClanSelectionScreen.Clan))
    (upd : option (option Err)) : forall c, option (ClanSelectionScreen.resp c) :=
  fun c =>
    match c return option (ClanSelectionScreen.resp c) with
    | ClanSelectionScreen.SelectClans => Some (data, None)
    | ClanSelectionScreen.UpdateClanId _ _ => upd
    end.

Definition onotka : ClanSelectionScreen.Clan :=
  ClanSelectionScreen.mkClan "c1" "ONOTKA" "La force brute." "Le socle."
    "Rituel de force" "onotka.jpeg" "#F77C6F".

(** * Properties *)

(** ** The interpreter and the combinators *)

Lemma emit_nil {A} (r : Result A) : emit [] r = r.
Proof. destruct r; reflexivity. Qed.

Lemma emit_emit {A} (e1 e2 : list Event) (r : Result A) :
  emit e1 (emit e2 r) = emit (e1 ++ e2) r.
Proof. destruct r; simpl; rewrite app_assoc; reflexivity. Qed.

Lemma emit_blocked {A} evs (r : Result A) t s w tr :
  emit evs r = Blocked t s w tr ->
  exists tr', r = Blocked t s w tr'.
Proof.
  destruct r as [o s' w' tr'|t' s' w' tr']; simpl; [discriminate|].
  intros [= -> -> -> _]. eexists; reflexivity.
Qed.

Lemma final_state_emit {A} evs (r : Result A) : final_state (emit evs r) = final_state r.
Proof. destruct r; reflexivity. Qed.

Lemma world_of_emit {A} evs (r : Result A) : world_of (emit evs r) = world_of r.
Proof. destruct r; reflexivity. Qed.

Lemma outcome_of_emit {A} evs (r : Result A) : outcome_of (emit evs r) = outcome_of r.
Proof. destruct r; reflexivity. Qed.

Lemma trace_of_emit {A} evs (r : Result A) : trace_of (emit evs r) = evs ++ trace_of r.
Proof. destruct r; reflexivity. Qed.

(** Running [t] then [f]: the second part starts where the first one
    stopped, and a suspension inside [t] keeps [f] pending. *)
Lemma run_bind {A B} (t : Task A) (f : A -> Task B) w s :
  run (bind t f) w s =
  match run t w s with
  | Done (Returned a) s' w' tr => emit tr (run (f a) w' s')
  | Done (Threw e) s' w' tr => Done (Threw e) s' w' tr
  | Blocked t' s' w' tr => Blocked (bind t' f) s' w' tr
  end.
Proof.
  revert w s; induction t as [a|e|op k IH|c k IH]; intros w s; simpl.
  - rewrite emit_nil; reflexivity.
  - reflexivity.
  - rewrite IH. destruct (run k w (apply op s)) as [[a|e] s' w' tr|t' s' w' tr]; simpl;
      try reflexivity. rewrite emit_emit; reflexivity.
  - destruct (answer c w) as [[r w']|]; [|reflexivity].
    rewrite IH. destruct (run (k r) w' s) as [[a|e] s' w'' tr|t' s' w'' tr]; simpl;
      try reflexivity. rewrite emit_emit; reflexivity.
Qed.

(** Running [try { t } catch { h }]: the handler starts where [t] threw. *)
Lemma run_try_catch {A} (t : Task A) (h : Err -> Task A) w s :
  run (try_catch t h) w s =
  match run t w s with
  | Done (Returned a) s' w' tr => Done (Returned a) s' w' tr
  | Done (Threw e) s' w' tr => emit tr (run (h e) w' s')
  | Blocked t' s' w' tr => Blocked (try_catch t' h) s' w' tr
  end.
Proof.
  revert w s; induction t as [a|e|op k IH|c k IH]; intros w s; simpl.
  - reflexivity.
  - rewrite emit_nil; reflexivity.
  - rewrite IH. destruct (run k w (apply op s)) as [[a|e] s' w' tr|t' s' w' tr]; simpl;
      try reflexivity. rewrite emit_emit; reflexivity.
  - destruct (answer c w) as [[r w']|]; [|reflexivity].
    rewrite IH. destruct (run (k r) w' s) as [[a|e] s' w'' tr|t' s' w'' tr]; simpl;
      try reflexivity. rewrite emit_emit; reflexivity.
Qed.

Lemma lookups_app tr1 tr2 : lookups (tr1 ++ tr2) = lookups tr1 + lookups tr2.
Proof. unfold lookups; rewrite filter_app, length_app; reflexivity. Qed.

(** ** One turn of the retry loop *)

Lemma retryAttempt_hit userId i w s data q :
  selects w = found data :: q ->
  run (retryAttempt userId i) w s =
  Done (Returned (Some true)) (mkState (Some (toUser data)) false (pendingProfile s))
       (with_selects q w) [Called (ProfilesSelect userId)].
Proof.
  intros Hq. unfold retryAttempt; simpl. rewrite Hq; reflexivity.
Qed.

Lemma retryAttempt_miss userId i w s r q n :
  selects w = r :: q -> is_miss r = true -> timers w = S n ->
  run (retryAttempt userId i) w s =
  Done (Returned None) s (with_timers n (with_selects q w)) (miss_events userId r).
Proof.
  intros Hq Hm Ht. unfold retryAttempt; simpl. rewrite Hq; simpl.
  destruct r as [[data|] [e|]]; try discriminate Hm; simpl; rewrite Ht; simpl;
    destruct s; reflexivity.
Qed.

Lemma retryAttempt_lookups userId i w s :
  issued_lookups (run (retryAttempt userId i) w s) <= 1.
Proof.
  unfold retryAttempt; simpl.
  destruct (selects w) as [|[[data|] [e|]] q]; simpl; try (unfold issued_lookups, lookups; simpl; lia);
    destruct (timers w); simpl; unfold issued_lookups, lookups; simpl; lia.
Qed.

(** ** The retry loop *)

(** A run only ever stops at an [Await]. *)
Lemma run_blocked_await {A} (t : Task A) : forall w s t' s' w' tr,
  run t w s = Blocked t' s' w' tr -> exists c k, t' = Await c k.
Proof.
  induction t as [a|e|op k IH|c k IH]; intros w s t' s' w' tr; simpl.
  - discriminate.
  - discriminate.
  - intros H. apply emit_blocked in H as [tr' H]. exact (IH _ _ _ _ _ _ H).
  - destruct (answer c w) as [[r w1]|].
    + intros H. apply emit_blocked in H as [tr' H]. exact (IH _ _ _ _ _ _ _ H).
    + intros [= <- _ _ _]. eexists; eexists; reflexivity.
Qed.

Lemma retryFrom_lookups userId left : forall i w s,
  issued_lookups (run (retryFrom userId left i) w s) <= left.
Proof.
  induction left as [|left IH]; intros i w s.
  - simpl. unfold issued_lookups, lookups; simpl; lia.
  - cbn [retryFrom]. rewrite run_bind.
    pose proof (retryAttempt_lookups userId i w s) as H1.
    destruct (run (retryAttempt userId i) w s) as [[[b|]|e] s' w' tr|t' s' w' tr] eqn:Ea;
      unfold issued_lookups in H1 |- *; simpl in H1 |- *; try lia.
    + rewrite app_nil_r; lia.
    + specialize (IH (S i) w' s'). unfold issued_lookups in IH.
      destruct (run (retryFrom userId left (S i)) w' s') as [o s2 w2 tr2|t2 s2 w2 tr2];
        simpl in IH |- *; rewrite lookups_app; lia.
    + destruct (run_blocked_await _ _ _ _ _ _ _ Ea) as (c & k & ->). simpl in H1 |- *. lia.
Qed.

Lemma with_selects_timers_id w q :
  selects w = q -> with_timers (timers w) (with_selects q w) = w.
Proof. intros <-. destruct w; reflexivity. Qed.

(** A run of unsuccessful turns consumes as many answers and timers and
    leaves the React state alone. *)
Lemma retryFrom_misses userId misses : forall left i w s q,
  selects w = misses ++ q ->
  forallb is_miss misses = true ->
  length misses <= left ->
  length misses <= timers w ->
  run (retryFrom userId left i) w s =
  emit (flat_map (miss_events userId) misses)
       (run (retryFrom userId (left - length misses) (i + length misses))
            (with_timers (timers w - length misses) (with_selects q w)) s).
Proof.
  induction misses as [|r misses IH]; intros left i w s q Hq Hm Hl Ht.
  - simpl in *. rewrite emit_nil, !Nat.sub_0_r, Nat.add_0_r.
    rewrite with_selects_timers_id by assumption. reflexivity.
  - simpl in Hq, Hm, Hl, Ht. apply andb_true_iff in Hm as [Hr Hm].
    destruct left as [|left]; [lia|].
    destruct (timers w) as [|n] eqn:En; [lia|].
    cbn [retryFrom]. rewrite run_bind.
    rewrite (retryAttempt_miss userId i w s r (misses ++ q) n Hq Hr En).
    assert (Hw : selects (with_timers n (with_selects (misses ++ q) w)) = misses ++ q)
      by reflexivity.
    assert (Hn : timers (with_timers n (with_selects (misses ++ q) w)) = n) by reflexivity.
    rewrite (IH left (S i) _ s q Hw Hm) by (rewrite ?Hn; lia).
    rewrite emit_emit, Hn. cbn [flat_map length].
    replace (S i + length misses) with (i + S (length misses)) by lia.
    replace (S n - S (length misses)) with (n - length misses) by lia.
    reflexivity.
Qed.

Lemma lookups_miss_events userId misses :
  lookups (flat_map (miss_events userId) misses) = length misses.
Proof.
  induction misses as [|r misses IH]; [reflexivity|].
  cbn [flat_map]. rewrite lookups_app, IH.
  destruct r as [d [e|]]; reflexivity.
Qed.

(** The loop finds the record at the turn it is served. *)
Lemma retryFrom_hit userId left i w s misses data rest :
  selects w = misses ++ found data :: rest ->
  forallb is_miss misses = true ->
  length misses < left ->
  length misses <= timers w ->
  run (retryFrom userId left i) w s =
  Done (Returned true) (mkState (Some (toUser data)) false (pendingProfile s))
       (with_timers (timers w - length misses) (with_selects rest w))
       (flat_map (miss_events userId) misses ++ [Called (ProfilesSelect userId)]).
Proof.
  intros Hq Hm Hl Ht.
  rewrite (retryFrom_misses userId misses left i w s _ Hq Hm) by lia.
  destruct (left - length misses) as [|left'] eqn:El; [lia|].
  cbn [retryFrom]. rewrite run_bind.
  erewrite retryAttempt_hit by (destruct w; reflexivity).
  simpl. destruct w; reflexivity.
Qed.

(** The loop gives up after [left] unsuccessful turns. *)
Lemma retryFrom_exhausted userId left i w s misses rest :
  selects w = misses ++ rest ->
  forallb is_miss misses = true ->
  length misses = left ->
  left <= timers w ->
  run (retryFrom userId left i) w s =
  Done (Returned false) (mkState (user s) false (pendingProfile s))
       (with_timers (timers w - left) (with_selects rest w))
       (flat_map (miss_events userId) misses).
Proof.
  intros Hq Hm Hl Ht.
  rewrite (retryFrom_misses userId misses left i w s _ Hq Hm) by lia.
  rewrite Hl, Nat.sub_diag. simpl. rewrite app_nil_r. reflexivity.
Qed.



(** ** Errors inside the retry loop *)

Lemma all_not_found_miss q : forallb is_miss (all_not_found q) = true.
Proof. induction q as [|r q IH]; [reflexivity|exact IH]. Qed.

Lemma calls_app tr1 tr2 : calls (tr1 ++ tr2) = calls tr1 ++ calls tr2.
Proof. unfold calls; apply filter_app. Qed.

Lemma calls_miss_events userId misses :
  calls (flat_map (miss_events userId) misses) =
  flat_map (fun _ => [Called (ProfilesSelect userId); Called (Delay 500)]) misses.
Proof.
  induction misses as [|r misses IH]; [reflexivity|].
  cbn [flat_map]. rewrite calls_app, IH.
  destruct r as [d [e|]]; reflexivity.
Qed.

(** C8. Inside [fetchUserProfileWithRetry] a lookup that errors is handled
    like a lookup that finds nothing: for attempts that yield no record
    (errors or empty answers, at most 5 of them, the timers firing), the run
    has the same outcome, the same final state, reads the same answers and
    makes the same calls as the run in which each of these attempts is
    answered "no record"; only the console differs.  Each such attempt
    costs one lookup followed by one delay of 500 ms, so the loop is not
    left early and the attempt counts in the budget. *)
Theorem lookup_error_counts_as_not_found
    (userId : string) (w : World) (s : State)
    (misses rest : list (option ProfileRow * option Err)) :
  selects w = misses ++ rest ->
  forallb is_miss misses = true ->
  length misses <= 5 ->
  length misses <= timers w ->
  let r := run (fetchUserProfileWithRetry userId defaultRetries) w s in
  let r0 := run (fetchUserProfileWithRetry userId defaultRetries)
                (with_selects (all_not_found misses ++ rest) w) s in
  outcome_of r = outcome_of r0 /\
  final_state r = final_state r0 /\
  world_of r = world_of r0 /\
  calls (trace_of r) = calls (trace_of r0) /\
  exists tl,
    calls (trace_of r) =
    flat_map (fun _ => [Called (ProfilesSelect userId); Called (Delay 500)]) misses ++ tl.
Proof.
  intros Hq Hm Hl Ht. cbv zeta. unfold fetchUserProfileWithRetry, defaultRetries.
  assert (Hlen : length (all_not_found misses) = length misses)
    by (unfold all_not_found; apply length_map).
  assert (E0 : run (retryFrom userId 5 0) (with_selects (all_not_found misses ++ rest) w) s =
               emit (flat_map (miss_events userId) (all_not_found misses))
                    (run (retryFrom userId (5 - length misses) (0 + length misses))
                         (with_timers (timers w - length misses) (with_selects rest w)) s)).
  { rewrite (retryFrom_misses userId (all_not_found misses) 5 0
               (with_selects (all_not_found misses ++ rest) w) s rest
               eq_refl (all_not_found_miss misses))
      by (rewrite Hlen; simpl; lia).
    rewrite Hlen. destruct w; reflexivity. }
  rewrite E0, (retryFrom_misses userId misses 5 0 w s rest Hq Hm Hl Ht).
  rewrite !outcome_of_emit, !final_state_emit, !world_of_emit, !trace_of_emit, !calls_app.
  rewrite !calls_miss_events.
  split; [reflexivity|]. split; [reflexivity|]. split; [reflexivity|]. split.
  - f_equal. unfold all_not_found. clear. induction misses; simpl; congruence.
  - eexists; reflexivity.
Qed.

(** Three failing lookups, then the record: the loop is still running at
    the fourth attempt. *)
Lemma lookup_error_counts_as_not_found_witness :
  let w := store [failed (StoreError "network"); failed (StoreError "network");
                  failed (StoreError "network"); found u1_row] 3 in
  let r := run (fetchUserProfileWithRetry "u1" defaultRetries) w initialState in
  let r0 := run (fetchUserProfileWithRetry "u1" defaultRetries)
                (with_selects (all_not_found
                   [failed (StoreError "network"); failed (StoreError "network");
                    failed (StoreError "network")] ++ [found u1_row]) w) initialState in
  outcome_of r = outcome_of r0 /\
  final_state r = final_state r0 /\
  world_of r = world_of r0 /\
  calls (trace_of r) = calls (trace_of r0) /\
  exists tl,
    calls (trace_of r) =
    flat_map (fun _ => [Called (ProfilesSelect "u1"); Called (Delay 500)])
      [failed (StoreError "network"); failed (StoreError "network");
       failed (StoreError "network")] ++ tl.
Proof.
  apply (lookup_error_counts_as_not_found "u1"
           (store [failed (StoreError "network"); failed (StoreError "network");
                   failed (StoreError "network"); found u1_row] 3) initialState
           [failed (StoreError "network"); failed (StoreError "network");
            failed (StoreError "network")] [found u1_row]);
    [reflexivity | reflexivity | simpl; lia | simpl; lia].
Defined.

(** ** The facade: signIn, signUp, signOut, setCurrentOnboardingData *)

(** C9. [signIn] raises [isLoading] before the identity client is called
    (while the call is in flight the flag is [true] and nothing else has
    changed).  When the credential is rejected with [e], [signIn] lowers
    the flag, rejects with [e] and leaves the user as it was.  When the call
    succeeds, [signIn] returns without having touched the user. *)
Theorem signIn_settles_and_rejects (email password : string) (w : World) (s : State) :
  let r := run (signIn email password) w s in
  (signIns w = [] ->
     outcome_of r = None /\
     final_state r = mkState (user s) true (pendingProfile s) /\
     trace_of r = []) /\
  (forall e q, signIns w = Some e :: q ->
     outcome_of r = Some (Threw e) /\
     isLoading (final_state r) = false /\
     user (final_state r) = user s /\
     trace_of r = [Called (SignInWithPassword email password); Logged "Sign in error:" e]) /\
  (forall q, signIns w = None :: q ->
     outcome_of r = Some (Returned tt) /\
     user (final_state r) = user s).
Proof.
  cbv zeta. unfold signIn; simpl.
  split; [intros Hq|split; [intros e q Hq|intros q Hq]]; rewrite Hq; simpl; repeat split.
Qed.

(** A call in flight, a rejected credential and an accepted one, for a
    user already on screen. *)
Lemma signIn_settles_and_rejects_witness :
  (let r := run (signIn "a@b.c" "pw") (auth_world [] [] []) settled_u1 in
   outcome_of r = None /\
   final_state r = mkState (Some (toUser u1_row)) true None /\
   trace_of r = []) /\
  (let r := run (signIn "a@b.c" "pw")
                (auth_world [Some (AuthError "Invalid login credentials")] [] []) settled_u1 in
   outcome_of r = Some (Threw (AuthError "Invalid login credentials")) /\
   isLoading (final_state r) = false /\
   user (final_state r) = Some (toUser u1_row) /\
   trace_of r = [Called (SignInWithPassword "a@b.c" "pw");
                 Logged "Sign in error:" (AuthError "Invalid login credentials")]) /\
  (let r := run (signIn "a@b.c" "pw") (auth_world [None] [] []) settled_u1 in
   outcome_of r = Some (Returned tt) /\
   user (final_state r) = Some (toUser u1_row)).
Proof.
  split; [|split].
  - apply (proj1 (signIn_settles_and_rejects "a@b.c" "pw" (auth_world [] [] []) settled_u1)).
    reflexivity.
  - apply (proj1 (proj2 (signIn_settles_and_rejects "a@b.c" "pw"
             (auth_world [Some (AuthError "Invalid login credentials")] [] []) settled_u1))
             (AuthError "Invalid login credentials") []).
    reflexivity.
  - apply (proj2 (proj2 (signIn_settles_and_rejects "a@b.c" "pw"
             (auth_world [None] [] []) settled_u1)) []).
    reflexivity.
Defined.

(** C2, as the code has it.  [signOut] clears the user exactly when the
    remote sign-out succeeds (and then navigates to the login screen).
    When the remote call fails with [e], the failure is logged and not
    rethrown, and the state is left as it was: the user is not cleared. *)
Theorem signOut_clears_on_remote_success (w : World) (s : State) :
  let r := run signOut w s in
  (forall q, signOuts w = None :: q ->
     outcome_of r = Some (Returned tt) /\
     user (final_state r) = None /\
     trace_of r = [Called AuthSignOut; Navigated "/(auth)/login"]) /\
  (forall e q, signOuts w = Some e :: q ->
     outcome_of r = Some (Returned tt) /\
     final_state r = s /\
     trace_of r = [Called AuthSignOut; Logged "Sign out error:" e]).
Proof.
  cbv zeta. unfold signOut; simpl.
  split; [intros q Hq|intros e q Hq]; rewrite Hq; simpl; repeat split.
Qed.

Lemma signOut_clears_on_remote_success_witness :
  (let r := run signOut (auth_world [] [] [None]) settled_u1 in
   outcome_of r = Some (Returned tt) /\
   user (final_state r) = None /\
   trace_of r = [Called AuthSignOut; Navigated "/(auth)/login"]) /\
  (let r := run signOut (auth_world [] [] [Some (AuthError "Failed to fetch")]) settled_u1 in
   outcome_of r = Some (Returned tt) /\
   final_state r = settled_u1 /\
   trace_of r = [Called AuthSignOut; Logged "Sign out error:" (AuthError "Failed to fetch")]).
Proof.
  split.
  - apply (proj1 (signOut_clears_on_remote_success (auth_world [] [] [None]) settled_u1) []).
    reflexivity.
  - apply (proj2 (signOut_clears_on_remote_success
             (auth_world [] [] [Some (AuthError "Failed to fetch")]) settled_u1)
             (AuthError "Failed to fetch") []).
    reflexivity.
Defined.

(** C2 as stated fails: with a user on screen and a remote sign-out that
    fails, the user is still there after [signOut]. *)
Lemma signOut_remote_failure_keeps_user :
  let r := run signOut (auth_world [] [] [Some (AuthError "Failed to fetch")]) settled_u1 in
  outcome_of r = Some (Returned tt) /\
  user (final_state r) = Some (toUser u1_row) /\
  user (final_state r) <> None.
Proof.
  cbv zeta; simpl. repeat split. discriminate.
Qed.

(** C7. [setCurrentOnboardingData] on a settled user with a clan to set:
    while the store update is in flight nothing has changed; if the update
    fails the state is left exactly as it was (the failure is logged); if
    it succeeds the user becomes the previous user with the data merged in
    (its clan is the new one), and the only call made is that update: no
    lookup follows. *)
Theorem setCurrentOnboardingData_after_confirmed_write
    (u : User) (data : PartialUser) (c : string) (w : World) (s : State) :
  user s = Some u ->
  id u <> "" ->
  p_clan data = Some c ->
  c <> "" ->
  let r := run (updateClan data s) w s in
  (updates w = [] ->
     outcome_of r = None /\ final_state r = s /\ trace_of r = []) /\
  (forall e q, updates w = Some e :: q ->
     outcome_of r = Some (Returned tt) /\
     final_state r = s /\
     trace_of r = [Called (ProfilesUpdateClan c (id u)); Logged "Error updating user data:" e]) /\
  (forall q, updates w = None :: q ->
     outcome_of r = Some (Returned tt) /\
     final_state r = mkState (Some (spread u data)) (isLoading s) (pendingProfile s) /\
     clan (spread u data) = Some c /\
     trace_of r = [Called (ProfilesUpdateClan c (id u))]).
Proof.
  intros Hu Hid Hc Hne. cbv zeta.
  unfold updateClan, setCurrentOnboardingData. rewrite Hu, Hc. unfold truthy.
  apply String.eqb_neq in Hid, Hne. rewrite Hid, Hne. simpl.
  split; [intros Hq|split; [intros e q Hq|intros q Hq]]; rewrite Hq; simpl.
  - repeat split.
  - repeat split.
  - rewrite Hu. split; [reflexivity|]. split; [reflexivity|].
    split; [unfold spread; simpl; rewrite Hc; reflexivity|reflexivity].
Qed.

Lemma setCurrentOnboardingData_after_confirmed_write_witness :
  (let r := run (updateClan (only_clan "okwaho") settled_u1) quiet settled_u1 in
   outcome_of r = None /\ final_state r = settled_u1 /\ trace_of r = []) /\
  (let r := run (updateClan (only_clan "okwaho") settled_u1)
                (mkWorld [] [] [] [] [] [] [Some (StoreError "network")] 0) settled_u1 in
   outcome_of r = Some (Returned tt) /\
   final_state r = settled_u1 /\
   trace_of r = [Called (ProfilesUpdateClan "okwaho" "u1");
                 Logged "Error updating user data:" (StoreError "network")]) /\
  (let r := run (updateClan (only_clan "okwaho") settled_u1)
                (mkWorld [] [] [] [] [] [] [None] 0) settled_u1 in
   outcome_of r = Some (Returned tt) /\
   final_state r = mkState (Some (mkUser "u1" "Bob" "" (Some "okwaho") 3)) false None /\
   clan (spread (toUser u1_row) (only_clan "okwaho")) = Some "okwaho" /\
   trace_of r = [Called (ProfilesUpdateClan "okwaho" "u1")]).
Proof.
  split; [|split].
  - apply (proj1 (setCurrentOnboardingData_after_confirmed_write
             (toUser u1_row) (only_clan "okwaho") "okwaho" quiet settled_u1
             eq_refl ltac:(discriminate) eq_refl ltac:(discriminate))).
    reflexivity.
  - apply (proj1 (proj2 (setCurrentOnboardingData_after_confirmed_write
             (toUser u1_row) (only_clan "okwaho") "okwaho"
             (mkWorld [] [] [] [] [] [] [Some (StoreError "network")] 0) settled_u1
             eq_refl ltac:(discriminate) eq_refl ltac:(discriminate)))
             (StoreError "network") []).
    reflexivity.
  - apply (proj2 (proj2 (setCurrentOnboardingData_after_confirmed_write
             (toUser u1_row) (only_clan "okwaho") "okwaho"
             (mkWorld [] [] [] [] [] [] [None] 0) settled_u1
             eq_refl ltac:(discriminate) eq_refl ltac:(discriminate))) []).
    reflexivity.
Defined.

(** ** Boot *)

(** C5, as the code has it.  On mount, when the identity client reports no
    session, [isLoading] is lowered and nothing else happens (the user
    stays absent).  When it reports a session, the profile is looked up
    exactly once, through [fetchUserProfile]: a record sets the user from
    it, an empty answer or an error leaves the user as it was, and
    [isLoading] is lowered in every case. *)
Theorem boot_single_lookup (w : World) (s : State) :
  let r := run boot w s in
  (forall q, sessions w = None :: q ->
     outcome_of r = Some (Returned tt) /\
     final_state r = mkState (user s) false (pendingProfile s) /\
     trace_of r = [Called GetSession]) /\
  (forall sess q a q', sessions w = Some sess :: q -> selects w = a :: q' ->
     outcome_of r = Some (Returned tt) /\
     lookups (trace_of r) = 1 /\
     selects (world_of r) = q' /\
     final_state r =
       mkState (if is_miss a then user s else option_map toUser (fst a))
               false (pendingProfile s)).
Proof.
  cbv zeta. unfold boot; simpl. split.
  - intros q Hq. rewrite Hq. simpl. repeat split.
  - intros sess q a q' Hq Ha. rewrite Hq. simpl. rewrite Ha. simpl.
    destruct a as [[data|] [e|]]; simpl; destruct s; repeat split.
Qed.

Lemma boot_single_lookup_witness :
  (let r := run boot (mkWorld [None] [] [] [] [] [] [] 0) initialState in
   outcome_of r = Some (Returned tt) /\
   final_state r = mkState None false None /\
   trace_of r = [Called GetSession]) /\
  (let r := run boot (mkWorld [Some (session_of "u1")] [] [] [] [] [found u1_row] [] 0)
                initialState in
   outcome_of r = Some (Returned tt) /\
   lookups (trace_of r) = 1 /\
   selects (world_of r) = [] /\
   final_state r = mkState (Some (toUser u1_row)) false None).
Proof.
  split.
  - apply (proj1 (boot_single_lookup (mkWorld [None] [] [] [] [] [] [] 0) initialState) []).
    reflexivity.
  - apply (proj2 (boot_single_lookup
             (mkWorld [Some (session_of "u1")] [] [] [] [] [found u1_row] [] 0) initialState)
             (session_of "u1") [] (found u1_row) []); reflexivity.
Defined.

(** C5 as stated fails: with a session for "u1" and a store that shows the
    record only at the second lookup, boot stops after one lookup with no
    user, whereas [fetchUserProfileWithRetry] in the same situation sets
    the user at its second attempt. *)
Lemma boot_does_not_retry :
  let w := mkWorld [Some (session_of "u1")] [] [] [] [] [not_found; found u1_row] [] 5 in
  let r := run boot w initialState in
  let r' := run (fetchUserProfileWithRetry "u1" defaultRetries) (with_sessions [] w) initialState in
  outcome_of r = Some (Returned tt) /\
  lookups (trace_of r) = 1 /\
  user (final_state r) = None /\
  user (final_state r') = Some (toUser u1_row) /\
  final_state r <> final_state r'.
Proof.
  cbv zeta; simpl. repeat split. discriminate.
Qed.

(** ** What the retry loop can do to the state, suspended or not *)

Lemma retryAttempt_post userId i w s :
  attempt_post w s (run (retryAttempt userId i) w s).
Proof.
  unfold retryAttempt; simpl.
  destruct (selects w) as [|[[data|] [e|]] q] eqn:Eq; simpl; try reflexivity.
  - destruct (timers w); simpl; [reflexivity|].
    split; [reflexivity|]. rewrite Eq. apply incl_tl, incl_refl.
  - split; [reflexivity|]. exists data. rewrite Eq.
    split; [left; reflexivity|reflexivity].
  - destruct (timers w); simpl; [reflexivity|].
    split; [reflexivity|]. rewrite Eq. apply incl_tl, incl_refl.
  - destruct (timers w); simpl; [reflexivity|].
    split; [reflexivity|]. rewrite Eq. apply incl_tl, incl_refl.
Qed.

(** A delay that was pending fires: the turn ends without a result. *)
Ltac resume_delay w3 :=
  simpl; destruct (timers w3); simpl; [reflexivity|split; [reflexivity|apply incl_refl]].

Lemma retryAttempt_resume_post userId i w s t s1 w1 tr1 :
  run (retryAttempt userId i) w s = Blocked t s1 w1 tr1 ->
  forall w3 s2, attempt_post w3 s2 (run t w3 s2).
Proof.
  unfold retryAttempt; simpl.
  destruct (selects w) as [|[[data|] [e|]] q] eqn:Eq; simpl.
  - intros [= <- _ _ _] w3 s2. apply (retryAttempt_post userId i w3 s2).
  - destruct (timers w); simpl; [|discriminate].
    intros [= <- _ _ _] w3 s2. resume_delay w3.
  - discriminate.
  - destruct (timers w); simpl; [|discriminate].
    intros [= <- _ _ _] w3 s2. resume_delay w3.
  - destruct (timers w); simpl; [|discriminate].
    intros [= <- _ _ _] w3 s2. resume_delay w3.
Qed.

Lemma loop_post_incl w w' s r :
  incl (selects w') (selects w) -> loop_post w' s r -> loop_post w s r.
Proof.
  intros Hi. destruct r as [[[|]|e] s' w'' tr|t' s' w'' tr]; simpl; auto.
  intros (data & Hin & Hs). exists data. split; [apply Hi, Hin|exact Hs].
Qed.

Lemma loop_post_emit w s evs r : loop_post w s r -> loop_post w s (emit evs r).
Proof. destruct r as [[[|]|e] s' w'' tr|t' s' w'' tr]; simpl; auto. Qed.

(** The continuation of a turn inside the loop. *)
Lemma retryFrom_step_post userId left i w s (ra : Result (option bool)) :
  (forall i w s, loop_post w s (run (retryFrom userId left i) w s)) ->
  attempt_post w s ra ->
  loop_post w s
    match ra with
    | Done (Returned a) s' w' tr =>
        emit tr (run (match a with
                      | Some b => Ret b
                      | None => retryFrom userId left (S i)
                      end) w' s')
    | Done (Threw e) s' w' tr => Done (Threw e) s' w' tr
    | Blocked t' s' w' tr =>
        Blocked (bind t' (fun r => match r with
                                   | Some b => Ret b
                                   | None => retryFrom userId left (S i)
                                   end)) s' w' tr
    end.
Proof.
  intros IH Ha.
  destruct ra as [[[b|]|e] s' w' tr|t' s' w' tr]; simpl in Ha |- *.
  - destruct Ha as (-> & data & Hin & ->). exists data. split; [exact Hin|reflexivity].
  - destruct Ha as (-> & Hi). apply loop_post_emit.
    apply (loop_post_incl w w' s _ Hi), IH.
  - exact Ha.
  - exact Ha.
Qed.

Lemma retryFrom_post userId left : forall i w s,
  loop_post w s (run (retryFrom userId left i) w s).
Proof.
  induction left as [|left IH]; intros i w s.
  - simpl. reflexivity.
  - cbn [retryFrom]. rewrite run_bind.
    apply retryFrom_step_post; [exact IH|apply retryAttempt_post].
Qed.

Lemma retryFrom_resume_post userId left : forall i w s t s1 w1 tr1,
  run (retryFrom userId left i) w s = Blocked t s1 w1 tr1 ->
  forall w3 s2, loop_post w3 s2 (run t w3 s2).
Proof.
  induction left as [|left IH]; intros i w s t s1 w1 tr1.
  - simpl. discriminate.
  - cbn [retryFrom]. rewrite run_bind.
    destruct (run (retryAttempt userId i) w s) as [[[b|]|e] s' w' tr|t' s' w' tr] eqn:Ea.
    + simpl. discriminate.
    + intros Hb. apply emit_blocked in Hb as [tr' Hb]. exact (IH _ _ _ _ _ _ _ Hb).
    + discriminate.
    + intros [= <- _ _ _] w3 s2. rewrite run_bind.
      apply retryFrom_step_post; [apply retryFrom_post|].
      exact (retryAttempt_resume_post userId i w s t' s' w' tr Ea w3 s2).
Qed.

(** ** Sign-out while the retry loop is in flight *)

(** C1, as the code has it.  A retry loop is suspended (at a lookup or at
    a delay); [signOut] then completes with a successful remote call and
    the user is absent; the loop is resumed later in that state.  If it
    ends without a record ([false]), or is still suspended, the user is
    still absent.  If it ends with a record ([true]), the user is set from
    that record: nothing discards the result of the stale loop.  The loop
    never throws. *)
Theorem stale_retry_after_signOut
    (userId : string) (w0 : World) (s0 : State)
    (wOut : World) (q : list (option Err)) (w3 : World) :
  outcome_of (run (fetchUserProfileWithRetry userId defaultRetries) w0 s0) = None ->
  signOuts wOut = None :: q ->
  let r1 := run (fetchUserProfileWithRetry userId defaultRetries) w0 s0 in
  let s2 := final_state (run signOut wOut (final_state r1)) in
  let r3 := resume r1 w3 s2 in
  user s2 = None /\
  match outcome_of r3 with
  | Some (Returned true) =>
      exists data, In (found data) (selects w3) /\
                   user (final_state r3) = Some (toUser data)
  | Some (Returned false) => user (final_state r3) = None
  | Some (Threw _) => False
  | None => user (final_state r3) = None
  end.
Proof.
  intros Hflight Hout. cbv zeta. unfold fetchUserProfileWithRetry in *.
  destruct (run (retryFrom userId defaultRetries 0) w0 s0) as [o s1 w1 tr1|t s1 w1 tr1] eqn:E1;
    [discriminate Hflight|].
  cbn [final_state resume].
  assert (H2 : user (final_state (run signOut wOut s1)) = None)
    by (unfold signOut; simpl; rewrite Hout; reflexivity).
  revert H2. generalize (final_state (run signOut wOut s1)). intros s2 H2.
  split; [exact H2|].
  pose proof (retryFrom_resume_post userId defaultRetries 0 w0 s0 t s1 w1 tr1 E1 w3 s2)
    as Hpost.
  destruct (run t w3 s2) as [[[|]|e] s3 w3' tr3|t3 s3 w3' tr3];
    cbn [loop_post outcome_of final_state] in Hpost |- *.
  - destruct Hpost as (data & Hin & ->). exists data. split; [exact Hin|reflexivity].
  - rewrite Hpost. exact H2.
  - exact Hpost.
  - rewrite Hpost. exact H2.
Qed.

(** The loop for "u1" waits for its first lookup; sign-out succeeds; every
    later lookup finds nothing. *)
Lemma stale_retry_after_signOut_witness :
  let r1 := run (fetchUserProfileWithRetry "u1" defaultRetries) (store [] 0) settled_u1 in
  let s2 := final_state (run signOut (auth_world [] [] [None]) (final_state r1)) in
  let r3 := resume r1 (store [not_found; not_found; not_found; not_found; not_found] 5) s2 in
  user s2 = None /\
  match outcome_of r3 with
  | Some (Returned true) =>
      exists data,
        In (found data) (selects (store [not_found; not_found; not_found; not_found; not_found] 5)) /\
        user (final_state r3) = Some (toUser data)
  | Some (Returned false) => user (final_state r3) = None
  | Some (Threw _) => False
  | None => user (final_state r3) = None
  end.
Proof.
  apply (stale_retry_after_signOut "u1" (store [] 0) settled_u1
           (auth_world [] [] [None]) []
           (store [not_found; not_found; not_found; not_found; not_found] 5));
    reflexivity.
Defined.

(** C1 as stated fails: the loop for "u1" is waiting for its first lookup
    when sign-out completes and clears the user; the lookup then answers
    with the record, and the user is back. *)
Lemma stale_retry_resurrects_user :
  let r1 := run (fetchUserProfileWithRetry "u1" defaultRetries) (store [] 0) settled_u1 in
  let s2 := final_state (run signOut (auth_world [] [] [None]) (final_state r1)) in
  let r3 := resume r1 (store [found u1_row] 0) s2 in
  outcome_of r1 = None /\
  user s2 = None /\
  outcome_of r3 = Some (Returned true) /\
  user (final_state r3) = Some (toUser u1_row) /\
  user (final_state r3) <> None.
Proof.
  cbv zeta; simpl. repeat split. discriminate.
Qed.

(** ** The auth-change listener *)

Lemma retryFrom_pending userId left i w s :
  pendingProfile (final_state (run (retryFrom userId left i) w s)) = pendingProfile s.
Proof.
  pose proof (retryFrom_post userId left i w s) as H.
  destruct (run (retryFrom userId left i) w s) as [[[|]|e] s' w' tr|t' s' w' tr];
    simpl in H |- *.
  - destruct H as (data & _ & ->). reflexivity.
  - rewrite H. reflexivity.
  - contradiction.
  - rewrite H. reflexivity.
Qed.

Lemma inserted_app tr1 tr2 : inserted (tr1 ++ tr2) = inserted tr1 ++ inserted tr2.
Proof. unfold inserted. apply flat_map_app. Qed.

Lemma retryAttempt_inserted userId i w s :
  inserted (trace_of (run (retryAttempt userId i) w s)) = [].
Proof.
  unfold retryAttempt; simpl.
  destruct (selects w) as [|[[data|] [e|]] q]; simpl; try reflexivity;
    destruct (timers w); reflexivity.
Qed.

Lemma retryFrom_inserted userId left : forall i w s,
  inserted (trace_of (run (retryFrom userId left i) w s)) = [].
Proof.
  induction left as [|left IH]; intros i w s; [reflexivity|].
  cbn [retryFrom]. rewrite run_bind.
  pose proof (retryAttempt_inserted userId i w s) as H1.
  destruct (run (retryAttempt userId i) w s) as [[[b|]|e] s' w' tr|t' s' w' tr];
    simpl in H1 |- *; rewrite ?app_nil_r; try exact H1.
  rewrite trace_of_emit, inserted_app, H1, IH. reflexivity.
Qed.

(** The listener when a registration is staged, the event is a sign-in and
    the insert succeeds: the stage is cleared and the rest of the run is
    the retry loop for the new identity. *)
Lemma listener_insert_succeeds (p : Pending) (sess : Session) (w : World) (s : State)
    (q : list (option Err)) :
  pendingProfile s = Some p ->
  inserts w = None :: q ->
  let userId := auth_id (session_user sess) in
  let r := run (deliver SIGNED_IN (Some sess) s) w s in
  let r' := run (fetchUserProfileWithRetry userId defaultRetries)
                (with_inserts q w) (mkState (user s) (isLoading s) None) in
  final_state r = final_state r' /\
  trace_of r = Called (ProfilesInsert (newProfileRow userId p)) :: trace_of r' /\
  world_of r = world_of r' /\
  (outcome_of r = None <-> outcome_of r' = None) /\
  (outcome_of r <> None -> outcome_of r = Some (Returned tt)).
Proof.
  intros Hp Ha. cbv zeta. unfold deliver, onAuthStateChange. rewrite Hp.
  cbn [is_signed_in]. unfold fetchUserProfileWithRetry.
  pose proof (retryFrom_post (auth_id (session_user sess)) defaultRetries 0
                (with_inserts q w) (mkState (user s) (isLoading s) None)) as Hpost.
  remember (retryFrom (auth_id (session_user sess)) defaultRetries 0) as F eqn:EF.
  simpl. rewrite Ha. simpl. rewrite run_try_catch, run_bind.
  destruct (run F (with_inserts q w) (mkState (user s) (isLoading s) None))
    as [[b|e] s' w' tr|t' s' w' tr]; simpl in Hpost |- *.
  - rewrite app_nil_r. repeat split; intros; try discriminate; try reflexivity.
  - destruct Hpost.
  - repeat split; intros H; try reflexivity; contradiction.
Qed.

(** The same when the insert is refused: only the handler runs. *)
Lemma listener_insert_fails (p : Pending) (sess : Session) (w : World) (s : State)
    (e : Err) (q : list (option Err)) :
  pendingProfile s = Some p ->
  inserts w = Some e :: q ->
  run (deliver SIGNED_IN (Some sess) s) w s =
  Done (Returned tt) (mkState (user s) false (Some p)) (with_inserts q w)
    [Called (ProfilesInsert (newProfileRow (auth_id (session_user sess)) p));
     Logged "Error creating profile:" e].
Proof.
  intros Hp Ha. unfold deliver, onAuthStateChange. rewrite Hp. cbn [is_signed_in].
  remember (fetchUserProfileWithRetry (auth_id (session_user sess)) defaultRetries) as F.
  simpl. rewrite Ha. simpl. rewrite Hp. reflexivity.
Qed.

(** C3, as the code has it.  A sign-in notification for identity [userId]
    arrives while [p] is staged.  Exactly one row is inserted:
    [{id: userId, name: p.name, clan: 'onotka', total_days_completed: 0}].
    When the insert succeeds and the store serves that row within the
    retry budget, the user is the projection of that row and its name is
    the staged name. *)
Theorem signed_in_inserts_staged_profile
    (p : Pending) (sess : Session) (w : World) (s : State)
    (a : option Err) (q : list (option Err)) :
  pendingProfile s = Some p ->
  inserts w = a :: q ->
  let userId := auth_id (session_user sess) in
  let r := run (deliver SIGNED_IN (Some sess) s) w s in
  inserted (trace_of r) = [mkRow userId (pending_name p) (Some "onotka") 0] /\
  (forall misses rest,
      a = None ->
      selects w = misses ++ found (newProfileRow userId p) :: rest ->
      forallb is_miss misses = true ->
      length misses < 5 ->
      length misses <= timers w ->
      outcome_of r = Some (Returned tt) /\
      final_state r =
        mkState (Some (mkUser userId (pending_name p) "" (Some "onotka") 0)) false None /\
      option_map name (user (final_state r)) = Some (pending_name p)).
Proof.
  intros Hp Ha. cbv zeta. destruct a as [e|].
  - rewrite (listener_insert_fails p sess w s e q Hp Ha). simpl.
    split; [reflexivity|]. intros misses rest He; discriminate He.
  - destruct (listener_insert_succeeds p sess w s q Hp Ha) as (Hs & Ht & _ & Hb & Hd).
    split.
    + rewrite Ht. unfold fetchUserProfileWithRetry.
      change (inserted (?e :: ?tr)) with (inserted [e] ++ inserted tr).
      rewrite retryFrom_inserted. reflexivity.
    + intros misses rest _ Hq Hm Hl Htm.
      pose proof (retryFrom_hit (auth_id (session_user sess)) defaultRetries 0
                    (with_inserts q w) (mkState (user s) (isLoading s) None)
                    misses (newProfileRow (auth_id (session_user sess)) p) rest
                    Hq Hm Hl Htm) as E.
      unfold fetchUserProfileWithRetry in Hs, Hb.
      rewrite E in Hs, Hb. cbn [final_state outcome_of] in Hs, Hb. rewrite Hs.
      split; [|split; reflexivity].
      apply Hd. intros Hn. apply Hb in Hn. discriminate Hn.
Qed.

(** The scenario of the specification: [signUp("Alice", ...)] stages the
    name, the notification for "u2" arrives, the insert succeeds and the
    row is visible at the second lookup. *)
Lemma signed_in_inserts_staged_profile_witness :
  let s := final_state (run (signUp "Alice" "a@b.c" "pw")
                            (auth_world [] [(Some (mkAuthUser "u2"), None)] []) initialState) in
  let w := mkWorld [] [] [] [] [None]
                   [not_found; found (newProfileRow "u2" (mkPending "Alice"))] [] 1 in
  let r := run (deliver SIGNED_IN (Some (session_of "u2")) s) w s in
  inserted (trace_of r) = [mkRow "u2" "Alice" (Some "onotka") 0] /\
  outcome_of r = Some (Returned tt) /\
  final_state r = mkState (Some (mkUser "u2" "Alice" "" (Some "onotka") 0)) false None /\
  option_map name (user (final_state r)) = Some "Alice".
Proof.
  pose proof (signed_in_inserts_staged_profile (mkPending "Alice") (session_of "u2")
           (mkWorld [] [] [] [] [None]
              [not_found; found (newProfileRow "u2" (mkPending "Alice"))] [] 1)
           (final_state (run (signUp "Alice" "a@b.c" "pw")
                             (auth_world [] [(Some (mkAuthUser "u2"), None)] []) initialState))
           None [] eq_refl eq_refl) as [Hrow Hname].
  split; [exact Hrow|].
  apply (Hname [not_found] []); [reflexivity | reflexivity | reflexivity | simpl; lia | simpl; lia].
Defined.

(** C3 as stated fails: the inserted row carries the clan 'onotka', not a
    null clan. *)
Lemma inserted_profile_has_default_clan :
  let s := final_state (run (signUp "Alice" "a@b.c" "pw")
                            (auth_world [] [(Some (mkAuthUser "u2"), None)] []) initialState) in
  let w := mkWorld [] [] [] [] [None]
                   [found (newProfileRow "u2" (mkPending "Alice"))] [] 0 in
  let r := run (deliver SIGNED_IN (Some (session_of "u2")) s) w s in
  pendingProfile s = Some (mkPending "Alice") /\
  inserted (trace_of r) = [mkRow "u2" "Alice" (Some "onotka") 0] /\
  inserted (trace_of r) <> [mkRow "u2" "Alice" None 0].
Proof.
  cbv zeta; simpl. repeat split. discriminate.
Qed.

(** * Further properties of the provider *)

(** ** The retry loop with any budget *)

(** Whatever the budget and the answers, [fetchUserProfileWithRetry] never
    rejects.  A run that returns [true] has set the user from a record the
    store served and lowered [isLoading]; a run that returns [false] has
    only lowered [isLoading]; a suspended run has changed nothing.  The
    staged registration is never touched. *)
Theorem fetchUserProfileWithRetry_outcomes (userId : string) (retries : nat)
    (w : World) (s : State) :
  match run (fetchUserProfileWithRetry userId retries) w s with
  | Done (Returned true) s' _ _ =>
      exists data, In (found data) (selects w) /\
                   s' = mkState (Some (toUser data)) false (pendingProfile s)
  | Done (Returned false) s' _ _ => s' = mkState (user s) false (pendingProfile s)
  | Done (Threw _) _ _ _ => False
  | Blocked _ s' _ _ => s' = s
  end.
Proof. exact (retryFrom_post userId retries 0 w s). Qed.

(** The number of lookups issued never exceeds the budget passed in, and a
    budget of 0 gives "not found" at once, without any call. *)
Theorem fetchUserProfileWithRetry_budget (userId : string) (retries : nat)
    (w : World) (s : State) :
  issued_lookups (run (fetchUserProfileWithRetry userId retries) w s) <= retries /\
  run (fetchUserProfileWithRetry userId 0) w s =
    Done (Returned false) (mkState (user s) false (pendingProfile s)) w [].
Proof.
  split; [apply retryFrom_lookups|reflexivity].
Qed.

Lemma waited_app tr1 tr2 : waited (tr1 ++ tr2) = (waited tr1 + waited tr2)%Z.
Proof.
  induction tr1 as [|e tr1 IH]; [reflexivity|].
  simpl. rewrite IH. destruct e as [[]| |]; lia.
Qed.

Lemma waited_miss_events userId misses :
  waited (flat_map (miss_events userId) misses) = (500 * Z.of_nat (length misses))%Z.
Proof.
  induction misses as [|r misses IH]; [reflexivity|].
  cbn [flat_map length]. rewrite waited_app, IH.
  destruct r as [d [e|]]; unfold miss_events; cbn [snd waited fold_right app]; lia.
Qed.

(** The loop sleeps 500 ms after every attempt that yields no record, the
    last one included: a record found at attempt k has cost (k-1) * 500 ms
    of delay, and "not found" is returned after [retries] * 500 ms. *)
Theorem fetchUserProfileWithRetry_waits (userId : string) (retries : nat)
    (w : World) (s : State) (misses : list (option ProfileRow * option Err)) :
  forallb is_miss misses = true ->
  length misses <= timers w ->
  let r := run (fetchUserProfileWithRetry userId retries) w s in
  (forall data rest,
      selects w = misses ++ found data :: rest ->
      length misses < retries ->
      outcome_of r = Some (Returned true) /\
      waited (trace_of r) = (500 * Z.of_nat (length misses))%Z) /\
  (forall rest,
      selects w = misses ++ rest ->
      length misses = retries ->
      outcome_of r = Some (Returned false) /\
      waited (trace_of r) = (500 * Z.of_nat retries)%Z).
Proof.
  intros Hm Ht. cbv zeta. unfold fetchUserProfileWithRetry. split.
  - intros data rest Hq Hl.
    rewrite (retryFrom_hit userId retries 0 w s misses data rest Hq Hm Hl Ht).
    cbn [outcome_of trace_of]. split; [reflexivity|].
    rewrite waited_app, waited_miss_events. simpl. lia.
  - intros rest Hq Hl.
    rewrite (retryFrom_exhausted userId retries 0 w s misses rest Hq Hm Hl) by lia.
    cbn [outcome_of trace_of]. split; [reflexivity|].
    rewrite waited_miss_events, Hl. reflexivity.
Qed.

Lemma fetchUserProfileWithRetry_waits_witness :
  (let r := run (fetchUserProfileWithRetry "u1" defaultRetries)
                (store [not_found; failed (StoreError "timeout"); found u1_row] 2)
                initialState in
   outcome_of r = Some (Returned true) /\ waited (trace_of r) = 1000%Z) /\
  (let r := run (fetchUserProfileWithRetry "u1" 2)
                (store [not_found; failed (StoreError "timeout"); found u1_row] 2)
                initialState in
   outcome_of r = Some (Returned false) /\ waited (trace_of r) = 1000%Z).
Proof.
  split.
  - apply (proj1 (fetchUserProfileWithRetry_waits "u1" defaultRetries
             (store [not_found; failed (StoreError "timeout"); found u1_row] 2) initialState
             [not_found; failed (StoreError "timeout")] eq_refl (le_n 2))
             u1_row []); [reflexivity | unfold defaultRetries; simpl; lia].
  - apply (proj2 (fetchUserProfileWithRetry_waits "u1" 2
             (store [not_found; failed (StoreError "timeout"); found u1_row] 2) initialState
             [not_found; failed (StoreError "timeout")] eq_refl (le_n 2))
             [found u1_row]); reflexivity.
Defined.

Lemma retryAttempt_miss_blocked userId i w s r q :
  selects w = r :: q -> is_miss r = true -> timers w = 0 ->
  exists t tr,
    run (retryAttempt userId i) w s = Blocked t s (with_selects q w) tr /\
    lookups tr = 1.
Proof.
  intros Hq Hm Ht. unfold retryAttempt; simpl. rewrite Hq; simpl.
  destruct r as [[data|] [e|]]; try discriminate Hm; simpl; rewrite Ht; simpl;
    destruct s; eexists; eexists; (split; [reflexivity|reflexivity]).
Qed.

(** The verdict "not found" waits for the delay that follows the last
    attempt: when every attempt of the budget has been answered without a
    record but the last timer has not fired yet, the run is still
    suspended, [isLoading] has not been lowered and no further lookup has
    been issued. *)
Theorem fetchUserProfileWithRetry_last_delay (userId : string) (w : World) (s : State)
    (misses : list (option ProfileRow * option Err))
    (last : option ProfileRow * option Err)
    (rest : list (option ProfileRow * option Err)) :
  selects w = misses ++ last :: rest ->
  forallb is_miss misses = true ->
  is_miss last = true ->
  timers w = length misses ->
  let r := run (fetchUserProfileWithRetry userId (S (length misses))) w s in
  outcome_of r = None /\
  final_state r = s /\
  issued_lookups r = S (length misses) /\
  selects (world_of r) = rest.
Proof.
  intros Hq Hm Hlast Ht. cbv zeta. unfold fetchUserProfileWithRetry.
  rewrite (retryFrom_misses userId misses (S (length misses)) 0 w s (last :: rest) Hq Hm)
    by lia.
  replace (S (length misses) - length misses) with 1 by lia.
  cbn [retryFrom]. rewrite run_bind.
  destruct (retryAttempt_miss_blocked userId (0 + length misses)
              (with_timers (timers w - length misses) (with_selects (last :: rest) w)) s
              last rest eq_refl Hlast) as (t & tr & E & Hl).
  { simpl. lia. }
  rewrite E.
  destruct (run_blocked_await _ _ _ _ _ _ _ E) as (c & k & ->).
  assert (Hc : awaits_select (Await c k) = false).
  { pose proof (retryAttempt_lookups userId (0 + length misses)
                  (with_timers (timers w - length misses) (with_selects (last :: rest) w)) s)
      as Hb.
    rewrite E in Hb. unfold issued_lookups in Hb. cbn [trace_of] in Hb.
    destruct (awaits_select (Await c k)); [lia|reflexivity]. }
  unfold issued_lookups. cbn [emit outcome_of final_state trace_of world_of].
  split; [reflexivity|]. split; [reflexivity|]. split; [|reflexivity].
  rewrite lookups_app, lookups_miss_events, Hl.
  destruct c; simpl in Hc |- *; try lia; discriminate Hc.
Qed.

Lemma fetchUserProfileWithRetry_last_delay_witness :
  let r := run (fetchUserProfileWithRetry "u1" defaultRetries)
               (store [not_found; not_found; not_found; not_found; not_found; found u1_row] 4)
               initialState in
  outcome_of r = None /\
  final_state r = initialState /\
  issued_lookups r = 5 /\
  selects (world_of r) = [found u1_row].
Proof.
  apply (fetchUserProfileWithRetry_last_delay "u1"
           (store [not_found; not_found; not_found; not_found; not_found; found u1_row] 4)
           initialState [not_found; not_found; not_found; not_found] not_found
           [found u1_row]); reflexivity.
Defined.

(** ** The facade, beyond the failure paths *)

Lemma signUp_final_state name email password w s :
  final_state (run (signUp name email password) w s) =
  mkState (user s) true (Some (mkPending name)).
Proof.
  unfold signUp; simpl.
  destruct (signUps w) as [|[[au|] [e|]] q]; simpl; try reflexivity;
    destruct (String.eqb (err_message e) "User already registered"); reflexivity.
Qed.

(** Once the identity service has answered, [signIn] ends with [isLoading]
    lowered and with the user and the stage as they were, and it navigates
    to the totem tab exactly when the credential was accepted. *)
Theorem signIn_navigates_iff_accepted (email password : string) (w : World) (s : State)
    (a : option Err) (q : list (option Err)) :
  signIns w = a :: q ->
  let r := run (signIn email password) w s in
  final_state r = mkState (user s) false (pendingProfile s) /\
  (In (Navigated "/(app)/(tabs)/totem") (trace_of r) <-> a = None) /\
  calls (trace_of r) =
    Called (SignInWithPassword email password)
    :: match a with None => [Navigated "/(app)/(tabs)/totem"] | Some _ => [] end.
Proof.
  intros Hq. cbv zeta. unfold signIn; simpl. rewrite Hq.
  destruct a as [e|]; simpl.
  - split; [reflexivity|]. split; [|reflexivity].
    split; [intros [H|[H|[]]]; discriminate H|discriminate].
  - split; [reflexivity|]. split; [|reflexivity].
    split; [reflexivity|]. intros _. right; left; reflexivity.
Qed.

Lemma signIn_navigates_iff_accepted_witness :
  let r := run (signIn "a@b.c" "pw") (auth_world [None] [] []) initialState in
  final_state r = mkState None false None /\
  (In (Navigated "/(app)/(tabs)/totem") (trace_of r) <-> @None Err = None) /\
  calls (trace_of r) =
    [Called (SignInWithPassword "a@b.c" "pw"); Navigated "/(app)/(tabs)/totem"].
Proof.
  apply (signIn_navigates_iff_accepted "a@b.c" "pw" (auth_world [None] [] []) initialState
           None []).
  reflexivity.
Defined.

(** [setCurrentOnboardingData] does nothing at all (no call, no state
    change, no log) when there is no user, when the user's id is empty, or
    when the data carries no clan or an empty one. *)
Theorem setCurrentOnboardingData_guard (data : PartialUser) (w : World) (s : State) :
  user s = None \/
  (exists u, user s = Some u /\ id u = "") \/
  p_clan data = None \/
  p_clan data = Some "" ->
  run (updateClan data s) w s = Done (Returned tt) s w [].
Proof.
  unfold updateClan, setCurrentOnboardingData.
  intros [H|[(u & H & Hid)|[H|H]]].
  - rewrite H. reflexivity.
  - rewrite H, Hid. destruct (p_clan data); reflexivity.
  - rewrite H. destruct (user s); reflexivity.
  - rewrite H. destruct (user s) as [u|]; [|reflexivity].
    simpl. rewrite orb_true_r. reflexivity.
Qed.

Lemma setCurrentOnboardingData_guard_witness :
  run (updateClan (mkPartial None (Some "Bea") None None None) settled_u1)
      (mkWorld [] [] [] [] [] [] [None] 0) settled_u1
  = Done (Returned tt) settled_u1 (mkWorld [] [] [] [] [] [] [None] 0) [].
Proof.
  apply (setCurrentOnboardingData_guard (mkPartial None (Some "Bea") None None None)
           (mkWorld [] [] [] [] [] [] [None] 0) settled_u1).
  right; right; left; reflexivity.
Defined.

(** An update that was in flight and is confirmed later merges the data
    into whoever is the user at that moment, not into the user it was
    started for: after a sign-out the user stays absent, and if another
    user has been reconciled meanwhile, that user receives the data, while
    the store update was addressed to the first user's id. *)
Theorem setCurrentOnboardingData_merges_into_current
    (u : User) (data : PartialUser) (c : string) (w : World) (s : State)
    (w2 : World) (s2 : State) (q : list (option Err)) :
  user s = Some u ->
  id u <> "" ->
  p_clan data = Some c ->
  c <> "" ->
  updates w = [] ->
  updates w2 = None :: q ->
  let r1 := run (updateClan data s) w s in
  let r2 := resume r1 w2 s2 in
  outcome_of r1 = None /\
  outcome_of r2 = Some (Returned tt) /\
  final_state r2 =
    mkState (option_map (fun p => spread p data) (user s2)) (isLoading s2) (pendingProfile s2) /\
  trace_of r2 = [Called (ProfilesUpdateClan c (id u))].
Proof.
  intros Hu Hid Hc Hne Hw Hw2. cbv zeta.
  unfold updateClan, setCurrentOnboardingData. rewrite Hu, Hc. unfold truthy.
  apply String.eqb_neq in Hid, Hne. rewrite Hid, Hne. simpl. rewrite Hw. simpl.
  rewrite Hw2. simpl. destruct (user s2); repeat split.
Qed.

(** The update for "u1" is in flight while "u2" is reconciled; when the
    store confirms it, "u2" is given the clan. *)
Lemma setCurrentOnboardingData_merges_into_current_witness :
  let r1 := run (updateClan (only_clan "okwaho") settled_u1) quiet settled_u1 in
  let r2 := resume r1 (mkWorld [] [] [] [] [] [] [None] 0)
                   (mkState (Some (toUser u2_row)) false None) in
  outcome_of r1 = None /\
  outcome_of r2 = Some (Returned tt) /\
  final_state r2 = mkState (Some (mkUser "u2" "Alice" "" (Some "okwaho") 0)) false None /\
  trace_of r2 = [Called (ProfilesUpdateClan "okwaho" "u1")].
Proof.
  apply (setCurrentOnboardingData_merges_into_current (toUser u1_row) (only_clan "okwaho")
           "okwaho" quiet settled_u1 (mkWorld [] [] [] [] [] [] [None] 0)
           (mkState (Some (toUser u2_row)) false None) []
           eq_refl ltac:(discriminate) eq_refl ltac:(discriminate) eq_refl eq_refl).
Defined.

(** ** The listener, beyond the creation of a profile *)

Lemma run_then_ret {A} (t : Task A) w s :
  let r := run (bind t (fun _ => Ret tt)) w s in
  final_state r = final_state (run t w s) /\
  trace_of r = trace_of (run t w s) /\
  world_of r = world_of (run t w s).
Proof.
  cbv zeta. rewrite run_bind.
  destruct (run t w s) as [[a|e] s' w' tr|t' s' w' tr]; simpl; rewrite ?app_nil_r; repeat split.
Qed.

(** A notification that carries a session makes no insert unless a
    registration is staged and the event is a sign-in: with nothing staged,
    or for any other event (a token refresh, say) even with a stage, the
    listener just runs the retry loop for the session's identity and the
    stage is left as it was. *)
Theorem listener_without_stage_only_fetches
    (event : AuthChangeEvent) (sess : Session) (w : World) (s : State) :
  pendingProfile s = None \/ event <> SIGNED_IN ->
  let r := run (deliver event (Some sess) s) w s in
  let r' := run (fetchUserProfileWithRetry (auth_id (session_user sess)) defaultRetries) w s in
  final_state r = final_state r' /\
  trace_of r = trace_of r' /\
  inserted (trace_of r) = [] /\
  pendingProfile (final_state r) = pendingProfile s.
Proof.
  intros H. cbv zeta.
  assert (E : deliver event (Some sess) s =
              (fetchUserProfileWithRetry (auth_id (session_user sess)) defaultRetries ;;
               Ret tt)).
  { unfold deliver, onAuthStateChange. destruct H as [H|H].
    - rewrite H. reflexivity.
    - destruct (pendingProfile s); [|reflexivity].
      destruct event; try reflexivity. contradiction. }
  rewrite E.
  destruct (run_then_ret (fetchUserProfileWithRetry (auth_id (session_user sess)) defaultRetries)
              w s) as (Hs & Ht & _).
  rewrite Hs, Ht. unfold fetchUserProfileWithRetry.
  rewrite retryFrom_inserted, retryFrom_pending. repeat split.
Qed.

(** A token refresh while "Alice" is staged: the stage stays, nothing is
    inserted. *)
Lemma listener_without_stage_only_fetches_witness :
  let s := mkState None true (Some (mkPending "Alice")) in
  let w := mkWorld [] [] [] [] [None] [found u1_row] [] 0 in
  let r := run (deliver TOKEN_REFRESHED (Some (session_of "u1")) s) w s in
  let r' := run (fetchUserProfileWithRetry "u1" defaultRetries) w s in
  final_state r = final_state r' /\
  trace_of r = trace_of r' /\
  inserted (trace_of r) = [] /\
  pendingProfile (final_state r) = Some (mkPending "Alice").
Proof.
  apply (listener_without_stage_only_fetches TOKEN_REFRESHED (session_of "u1")
           (mkWorld [] [] [] [] [None] [found u1_row] [] 0)
           (mkState None true (Some (mkPending "Alice")))).
  right; discriminate.
Defined.

(** Signing out does not clear a staged registration: after a [signOut]
    whose remote call succeeded and the notification without session that
    follows it, the user is absent, [isLoading] is lowered, and the stage
    is still what it was.  The notification makes no call. *)
Theorem signOut_then_notification_keeps_stage
    (event : AuthChangeEvent) (w : World) (s : State) (q : list (option Err)) :
  signOuts w = None :: q ->
  let r1 := run signOut w s in
  let r2 := run (deliver event None (final_state r1)) (world_of r1) (final_state r1) in
  final_state r1 = mkState None (isLoading s) (pendingProfile s) /\
  final_state r2 = mkState None false (pendingProfile s) /\
  trace_of r2 = [] /\
  outcome_of r2 = Some (Returned tt).
Proof.
  intros Hq. cbv zeta. unfold signOut; simpl. rewrite Hq. simpl. repeat split.
Qed.

Lemma signOut_then_notification_keeps_stage_witness :
  let s := mkState (Some (toUser u1_row)) true (Some (mkPending "Alice")) in
  let r1 := run signOut (auth_world [] [] [None]) s in
  let r2 := run (deliver SIGNED_OUT None (final_state r1)) (world_of r1) (final_state r1) in
  final_state r1 = mkState None true (Some (mkPending "Alice")) /\
  final_state r2 = mkState None false (Some (mkPending "Alice")) /\
  trace_of r2 = [] /\
  outcome_of r2 = Some (Returned tt).
Proof.
  apply (signOut_then_notification_keeps_stage SIGNED_OUT (auth_world [] [] [None])
           (mkState (Some (toUser u1_row)) true (Some (mkPending "Alice"))) []).
  reflexivity.
Defined.

(** A stage left behind by a [signUp] that failed is consumed by the next
    sign-in notification, whoever signs in: the listener tries to insert a
    profile carrying the stale name for that identity, and when the store
    refuses the insert it gives up without looking the profile up, so the
    user stays as it was although the session exists. *)
Theorem stale_stage_diverts_sign_in
    (name email password : string) (wUp : World) (s : State)
    (ans : option AuthUser * option Err) (qUp : list (option AuthUser * option Err))
    (sess : Session) (w : World) (e : Err) (q : list (option Err)) :
  signUps wUp = ans :: qUp ->
  snd ans <> None \/ fst ans = None ->
  inserts w = Some e :: q ->
  let r0 := run (signUp name email password) wUp s in
  let r := run (deliver SIGNED_IN (Some sess) (final_state r0)) w (final_state r0) in
  (exists e0, outcome_of r0 = Some (Threw e0)) /\
  inserted (trace_of r) = [newProfileRow (auth_id (session_user sess)) (mkPending name)] /\
  issued_lookups r = 0 /\
  final_state r = mkState (user s) false (Some (mkPending name)).
Proof.
  intros Hq Hfail Hi. cbv zeta. split.
  - unfold signUp; simpl. rewrite Hq; simpl.
    destruct ans as [[au|] [err|]]; simpl in Hfail |- *;
      try (destruct (String.eqb (err_message err) "User already registered"));
      try (eexists; reflexivity).
    destruct Hfail as [H|H]; [contradiction|discriminate].
  - rewrite signUp_final_state.
    rewrite (listener_insert_fails (mkPending name) sess w
               (mkState (user s) true (Some (mkPending name))) e q eq_refl Hi).
    repeat split.
Qed.

Lemma stale_stage_diverts_sign_in_witness :
  let r0 := run (signUp "Alice" "bob@b.c" "pw")
                (auth_world [] [(None, Some (AuthError "User already registered"))] [])
                initialState in
  let r := run (deliver SIGNED_IN (Some (session_of "u1")) (final_state r0))
               (mkWorld [] [] [] [] [Some (StoreError "duplicate key")] [found u1_row] [] 5)
               (final_state r0) in
  (exists e0, outcome_of r0 = Some (Threw e0)) /\
  inserted (trace_of r) = [newProfileRow "u1" (mkPending "Alice")] /\
  issued_lookups r = 0 /\
  final_state r = mkState None false (Some (mkPending "Alice")).
Proof.
  apply (stale_stage_diverts_sign_in "Alice" "bob@b.c" "pw"
           (auth_world [] [(None, Some (AuthError "User already registered"))] [])
           initialState (None, Some (AuthError "User already registered")) []
           (session_of "u1")
           (mkWorld [] [] [] [] [Some (StoreError "duplicate key")] [found u1_row] [] 5)
           (StoreError "duplicate key") []);
    [reflexivity | left; discriminate | reflexivity].
Defined.

(** * The screens *)

(** ** PathsScreen *)


Lemma discovery_premium_length (programs : list PathsScreen.Program) :
  length (PathsScreen.discoveryPrograms programs)
  + length (PathsScreen.premiumPrograms programs) <= length programs.
Proof.
  induction programs as [|p l IH]; [apply le_n|].
  unfold PathsScreen.discoveryPrograms, PathsScreen.premiumPrograms in *. simpl.
  destruct (String.eqb (PathsScreen.type p) "Découverte") eqn:Ed.
  - apply String.eqb_eq in Ed. rewrite Ed. simpl. lia.
  - destruct (String.eqb (PathsScreen.type p) "Premium"); simpl; lia.
Qed.

(** The two sections never share a program, each holds exactly the
    programs of its type, and together they show at most the programs
    fetched: a program of any other type appears in neither. *)
Theorem sections_split_by_type (programs : list PathsScreen.Program)
    (p : PathsScreen.Program) :
  (In p (PathsScreen.discoveryPrograms programs) <->
   In p programs /\ PathsScreen.type p = "Découverte") /\
  (In p (PathsScreen.premiumPrograms programs) <->
   In p programs /\ PathsScreen.type p = "Premium") /\
  ~ (In p (PathsScreen.discoveryPrograms programs) /\
     In p (PathsScreen.premiumPrograms programs)) /\
  length (PathsScreen.discoveryPrograms programs)
  + length (PathsScreen.premiumPrograms programs) <= length programs.
Proof.
  unfold PathsScreen.discoveryPrograms, PathsScreen.premiumPrograms.
  split; [|split; [|split]].
  - rewrite filter_In, String.eqb_eq. reflexivity.
  - rewrite filter_In, String.eqb_eq. reflexivity.
  - rewrite !filter_In, !String.eqb_eq. intros [[_ Hd] [_ Hp]].
    rewrite Hd in Hp. discriminate Hp.
  - apply discovery_premium_length.
Qed.

Lemma filter_type_none (t : string) (l : list PathsScreen.Program) :
  (forall p, In p l -> PathsScreen.type p <> t) ->
  filter (fun p => String.eqb (PathsScreen.type p) t) l = [].
Proof.
  induction l as [|p l IH]; intros H; [reflexivity|]. simpl.
  destruct (String.eqb (PathsScreen.type p) t) eqn:E.
  - apply String.eqb_eq in E. destruct (H p (or_introl eq_refl) E).
  - apply IH. intros p' Hp'. apply H. right; exact Hp'.
Qed.

(** When programs were fetched but none is of type 'Découverte' or
    'Premium', the screen shows its two sections, both empty, and not the
    "no programme" text. *)
Theorem unknown_types_show_empty_sections (parse : string -> option JValue)
    (s : PathsScreen.St) :
  PathsScreen.isLoading s = false ->
  PathsScreen.error s = None ->
  PathsScreen.programs s <> [] ->
  (forall p, In p (PathsScreen.programs s) ->
     PathsScreen.type p <> "Découverte" /\ PathsScreen.type p <> "Premium") ->
  PathsScreen.render parse s = PathsScreen.Sections [] [].
Proof.
  intros Hl He Hne Hty. unfold PathsScreen.render. rewrite Hl, He. simpl.
  unfold PathsScreen.discoveryPrograms, PathsScreen.premiumPrograms.
  rewrite !filter_type_none by (intros p Hp; apply (Hty p Hp)).
  destruct (PathsScreen.programs s) as [|p0 l]; [contradiction|reflexivity].
Qed.

Lemma unknown_types_show_empty_sections_witness :
  PathsScreen.render parse_sample
    (PathsScreen.mkSt
       [PathsScreen.mkProgram "p1" "Marche" "" "" 7 "Bonus" (PathsScreen.TagList [])]
       false None)
  = PathsScreen.Sections [] [].
Proof.
  apply (unknown_types_show_empty_sections parse_sample
           (PathsScreen.mkSt
              [PathsScreen.mkProgram "p1" "Marche" "" "" 7 "Bonus" (PathsScreen.TagList [])]
              false None) eq_refl eq_refl).
  - discriminate.
  - intros p [<-|[]]. split; discriminate.
Defined.

(** ** From the tags of a program to the badges of its card *)

Lemma valid_child_strings (items : list string) :
  forallb valid_child (map JString items) = true.
Proof. induction items as [|x items IH]; [reflexivity|exact IH]. Qed.

(** The badges of a card built by [PathsScreen], for every [JSON.parse].
    Tags given as an array are shown as they are.  Tags given as text that
    does not parse, or that parses to null, a boolean, a number or an
    object, give no badge.  Text that parses to an array shows its items
    when React can render each of them, and makes the card throw when an
    item is an object (at any depth of nested arrays).  Text that parses
    to a string is parsed a second time by the card, outside any [try]:
    the card throws a syntax error when that fails. *)
Theorem card_badges_by_tags (parse : string -> option JValue)
    (program : PathsScreen.Program) :
  let badges := ProgramCard.tagBadges parse (PathsScreen.card parse program) in
  (forall items, PathsScreen.tags program = PathsScreen.TagList items ->
     badges = inr (map JString items)) /\
  (forall text, PathsScreen.tags program = PathsScreen.TagText text ->
     parse text = None ->
     badges = inr []) /\
  (forall text v, PathsScreen.tags program = PathsScreen.TagText text ->
     parse text = Some v ->
     (forall items, v <> JArray items) -> (forall inner, v <> JString inner) ->
     badges = inr []) /\
  (forall text items, PathsScreen.tags program = PathsScreen.TagText text ->
     parse text = Some (JArray items) ->
     badges = if forallb valid_child items then inr items else inl InvalidChild) /\
  (forall text inner, PathsScreen.tags program = PathsScreen.TagText text ->
     parse text = Some (JString inner) ->
     parse (or_default inner "[]") = None ->
     badges = inl SyntaxError).
Proof.
  cbv zeta.
  unfold ProgramCard.tagBadges, ProgramCard.parsedFocus, PathsScreen.card,
    PathsScreen.parsedTags. simpl.
  split; [|split; [|split; [|split]]].
  - intros items ->. rewrite valid_child_strings. reflexivity.
  - intros text -> ->. reflexivity.
  - intros text v -> -> Ha Hs.
    destruct v as [| | |inner|items|]; try reflexivity.
    + destruct (Hs inner eq_refl).
    + destruct (Ha items eq_refl).
  - intros text items -> ->. reflexivity.
  - intros text inner -> -> ->. reflexivity.
Qed.

Lemma card_badges_by_tags_witness :
  ProgramCard.tagBadges parse_sample
    (PathsScreen.card parse_sample
       (PathsScreen.mkProgram "p1" "Marche" "" "" 7 "Premium"
          (PathsScreen.TagList ["force"; "souffle"])))
  = inr [JString "force"; JString "souffle"] /\
  ProgramCard.tagBadges parse_sample
    (PathsScreen.card parse_sample
       (PathsScreen.mkProgram "p2" "Course" "" "" 7 "Premium" (PathsScreen.TagText "[force")))
  = inr [] /\
  ProgramCard.tagBadges parse_sample
    (PathsScreen.card parse_sample
       (PathsScreen.mkProgram "p3" "Saut" "" "" 7 "Premium" (PathsScreen.TagText "7")))
  = inr [] /\
  ProgramCard.tagBadges parse_sample
    (PathsScreen.card parse_sample
       (PathsScreen.mkProgram "p5" "Lutte" "" "" 7 "Premium" (PathsScreen.TagText "[{}]")))
  = inl InvalidChild /\
  ProgramCard.tagBadges parse_sample
    (PathsScreen.card parse_sample
       (PathsScreen.mkProgram "p4" "Nage" "" "" 7 "Premium"
          (PathsScreen.TagText (quoted "force"))))
  = inl SyntaxError.
Proof.
  split; [|split; [|split; [|split]]].
  - pose proof (card_badges_by_tags parse_sample
                  (PathsScreen.mkProgram "p1" "Marche" "" "" 7 "Premium"
                     (PathsScreen.TagList ["force"; "souffle"]))) as H.
    cbv zeta in H. exact (proj1 H ["force"; "souffle"] eq_refl).
  - pose proof (card_badges_by_tags parse_sample
                  (PathsScreen.mkProgram "p2" "Course" "" "" 7 "Premium"
                     (PathsScreen.TagText "[force"))) as H.
    cbv zeta in H. exact (proj1 (proj2 H) "[force" eq_refl eq_refl).
  - pose proof (card_badges_by_tags parse_sample
                  (PathsScreen.mkProgram "p3" "Saut" "" "" 7 "Premium"
                     (PathsScreen.TagText "7"))) as H.
    cbv zeta in H.
    apply (proj1 (proj2 (proj2 H)) "7" (JNumber "7") eq_refl eq_refl);
      intros x E; discriminate E.
  - pose proof (card_badges_by_tags parse_sample
                  (PathsScreen.mkProgram "p5" "Lutte" "" "" 7 "Premium"
                     (PathsScreen.TagText "[{}]"))) as H.
    cbv zeta in H.
    exact (proj1 (proj2 (proj2 (proj2 H))) "[{}]" [JObject []] eq_refl eq_refl).
  - pose proof (card_badges_by_tags parse_sample
                  (PathsScreen.mkProgram "p4" "Nage" "" "" 7 "Premium"
                     (PathsScreen.TagText (quoted "force")))) as H.
    cbv zeta in H.
    exact (proj2 (proj2 (proj2 (proj2 H))) (quoted "force") "force" eq_refl eq_refl eq_refl).
Defined.


(** ** ClanSelectionScreen *)

(** No handler of the screen ever clears [error]: once the error view is
    shown, it is still shown after [fetchClans] (the retry button),
    [handleSelectClan] or [handleNext], whatever the backend answers.  In
    particular a retry that succeeds loads the clans and leaves the error
    in place. *)
Theorem clan_error_is_never_cleared
    (oracle : forall c, option (ClanSelectionScreen.resp c)) (s : ClanSelectionScreen.St)
    (clanId : string) (sel : option string) (user : option User) :
  ClanSelectionScreen.showsError s = true ->
  ClanSelectionScreen.showsError
    (Screen.state_of (Screen.run ClanSelectionScreen.fetchClans oracle s)) = true /\
  ClanSelectionScreen.showsError
    (Screen.state_of (Screen.run (ClanSelectionScreen.handleSelectClan clanId) oracle s)) = true /\
  ClanSelectionScreen.showsError
    (Screen.state_of (Screen.run (ClanSelectionScreen.handleNext sel user) oracle s)) = true /\
  (forall data, oracle ClanSelectionScreen.SelectClans = Some (data, None) ->
     Screen.state_of (Screen.run ClanSelectionScreen.fetchClans oracle s) =
     ClanSelectionScreen.setClans (or_else data []) s).
Proof.
  intros He. unfold ClanSelectionScreen.showsError in *. split; [|split; [|split]].
  - unfold ClanSelectionScreen.fetchClans. simpl.
    destruct (oracle ClanSelectionScreen.SelectClans) as [[data [e|]]|]; simpl;
      try exact He; reflexivity.
  - exact He.
  - unfold ClanSelectionScreen.handleNext.
    destruct sel as [c|]; [|reflexivity]. destruct user as [u|]; [|reflexivity].
    destruct (negb (truthy (Some c))); [reflexivity|]. simpl.
    destruct (oracle (ClanSelectionScreen.UpdateClanId c (ClanSelectionScreen.user_id u)))
      as [[e|]|]; simpl; try exact He; reflexivity.
  - intros data Hd. unfold ClanSelectionScreen.fetchClans. simpl. rewrite Hd. reflexivity.
Qed.

(** The first load failed; the retry succeeds: the clans are there and the
    error view is still shown. *)
Lemma clan_error_is_never_cleared_witness :
  let s := ClanSelectionScreen.mkSt [] None false (Some "Erreur lors du chargement des clans") in
  let o := clan_backend (Some [onotka]) None in
  ClanSelectionScreen.showsError
    (Screen.state_of (Screen.run ClanSelectionScreen.fetchClans o s)) = true /\
  ClanSelectionScreen.showsError
    (Screen.state_of (Screen.run (ClanSelectionScreen.handleSelectClan "c1") o s)) = true /\
  ClanSelectionScreen.showsError
    (Screen.state_of (Screen.run (ClanSelectionScreen.handleNext (Some "c1") None) o s)) = true /\
  Screen.state_of (Screen.run ClanSelectionScreen.fetchClans o s) =
    ClanSelectionScreen.mkSt [onotka] None false (Some "Erreur lors du chargement des clans").
Proof.
  destruct (clan_error_is_never_cleared (clan_backend (Some [onotka]) None)
              (ClanSelectionScreen.mkSt [] None false
                 (Some "Erreur lors du chargement des clans"))
              "c1" (Some "c1") None eq_refl) as (H1 & H2 & H3 & H4).
  split; [exact H1|]. split; [exact H2|]. split; [exact H3|].
  exact (H4 (Some [onotka]) eq_refl).
Defined.

(** [handleNext] without a selected clan (none, or an empty id) or without
    a user only sets the error: it makes no call, does not navigate and
    leaves [isLoading] alone. *)
Theorem handleNext_guard
    (oracle : forall c, option (ClanSelectionScreen.resp c)) (s : ClanSelectionScreen.St)
    (sel : option string) (user : option User) :
  truthy sel = false \/ user = None ->
  Screen.run (ClanSelectionScreen.handleNext sel user) oracle s =
  Screen.Finished (Returned tt)
    (ClanSelectionScreen.setError (Some "Une erreur est survenue. Veuillez réessayer.") s) [].
Proof.
  intros H. unfold ClanSelectionScreen.handleNext.
  destruct sel as [c|]; [|reflexivity]. destruct user as [u|]; [|reflexivity].
  destruct H as [H|H]; [|discriminate H]. rewrite H. reflexivity.
Qed.

Lemma handleNext_guard_witness :
  Screen.run (ClanSelectionScreen.handleNext (Some "c1") None)
    (clan_backend None (Some None)) ClanSelectionScreen.initial =
  Screen.Finished (Returned tt)
    (ClanSelectionScreen.mkSt [] None false
       (Some "Une erreur est survenue. Veuillez réessayer.")) [].
Proof.
  apply (handleNext_guard (clan_backend None (Some None)) ClanSelectionScreen.initial
           (Some "c1") None).
  right; reflexivity.
Defined.

(** [handleNext] with a clan selected and a user: while the update of
    [clan_id] for the user's id is pending, [isLoading] is raised and the
    button is disabled; when it succeeds the screen navigates to the totem
    tab; when it fails the error is logged and set and nothing is pushed;
    [isLoading] is lowered in both cases, and the selection is kept. *)
Theorem handleNext_updates_then_navigates
    (oracle : forall c, option (ClanSelectionScreen.resp c)) (s : ClanSelectionScreen.St)
    (c : string) (u : User) :
  c <> "" ->
  ClanSelectionScreen.selectedClanId s = Some c ->
  let call := ClanSelectionScreen.UpdateClanId c (ClanSelectionScreen.user_id u) in
  let r := Screen.run (ClanSelectionScreen.onContinue (Some u) s) oracle s in
  match oracle call with
  | None =>
      Screen.result_of r = None /\
      Screen.state_of r = ClanSelectionScreen.setIsLoading true s /\
      ClanSelectionScreen.continueDisabled (Screen.state_of r) = true /\
      Screen.events_of r = []
  | Some None =>
      Screen.result_of r = Some (Returned tt) /\
      Screen.state_of r = ClanSelectionScreen.setIsLoading false s /\
      Screen.events_of r = [Screen.Asked call; Screen.Pushed "/(app)/(tabs)/totem" []]
  | Some (Some e) =>
      Screen.result_of r = Some (Returned tt) /\
      Screen.state_of r =
        ClanSelectionScreen.setIsLoading false
          (ClanSelectionScreen.setError (Some "Erreur lors de la sélection du clan") s) /\
      Screen.events_of r = [Screen.Asked call; Screen.Printed "Error updating clan:" e]
  end.
Proof.
  intros Hc Hs. cbv zeta.
  unfold ClanSelectionScreen.onContinue, ClanSelectionScreen.handleNext. rewrite Hs.
  apply String.eqb_neq in Hc. unfold truthy. rewrite Hc. simpl.
  destruct (oracle (ClanSelectionScreen.UpdateClanId c (ClanSelectionScreen.user_id u)))
    as [[e|]|]; simpl.
  - repeat split.
  - repeat split.
  - split; [reflexivity|]. split; [reflexivity|]. split; [|reflexivity].
    unfold ClanSelectionScreen.continueDisabled. simpl. apply orb_true_r.
Qed.

Lemma handleNext_updates_then_navigates_witness :
  let s := ClanSelectionScreen.mkSt [onotka] (Some "c1") false None in
  let r := Screen.run (ClanSelectionScreen.onContinue (Some (toUser u1_row)) s)
             (clan_backend None (Some None)) s in
  Screen.result_of r = Some (Returned tt) /\
  Screen.state_of r = ClanSelectionScreen.setIsLoading false s /\
  Screen.events_of r =
    [Screen.Asked (ClanSelectionScreen.UpdateClanId "c1" "u1");
     Screen.Pushed "/(app)/(tabs)/totem" []].
Proof.
  apply (handleNext_updates_then_navigates (clan_backend None (Some None))
           (ClanSelectionScreen.mkSt [onotka] (Some "c1") false None) "c1" (toUser u1_row)
           ltac:(discriminate) eq_refl).
Defined.

(** * The provider as a component *)

(** ** Tasks that leave the stage alone *)

Lemma stage_free_bind {A B} (t : Task A) (f : A -> Task B) :
  stage_free t -> (forall a, stage_free (f a)) -> stage_free (bind t f).
Proof.
  intros Ht Hf. induction t as [a|e|op k IH|c k IH]; simpl in *.
  - apply Hf.
  - exact I.
  - destruct op; try contradiction; apply IH, Ht.
  - intros r. apply IH, Ht.
Qed.

Lemma stage_free_try_catch {A} (t : Task A) (h : Err -> Task A) :
  stage_free t -> (forall e, stage_free (h e)) -> stage_free (try_catch t h).
Proof.
  intros Ht Hh. induction t as [a|e|op k IH|c k IH]; simpl in *.
  - exact I.
  - apply Hh.
  - destruct op; try contradiction; apply IH, Ht.
  - intros r. apply IH, Ht.
Qed.

Lemma stage_free_try_finally {A} (t : Task A) (fin : Task unit) :
  stage_free t -> stage_free fin -> stage_free (try_finally t fin).
Proof.
  intros Ht Hf. induction t as [a|e|op k IH|c k IH]; simpl in *.
  - apply stage_free_bind; [exact Hf|intros _; exact I].
  - apply stage_free_bind; [exact Hf|intros _; exact I].
  - destruct op; try contradiction; apply IH, Ht.
  - intros r. apply IH, Ht.
Qed.

Lemma stage_free_retryAttempt userId i : stage_free (retryAttempt userId i).
Proof.
  unfold retryAttempt. simpl. intros [[data|] [e|]]; simpl; auto.
Qed.

Lemma stage_free_retryFrom userId left : forall i, stage_free (retryFrom userId left i).
Proof.
  induction left as [|left IH]; intros i; [exact I|].
  cbn [retryFrom]. apply stage_free_bind; [apply stage_free_retryAttempt|].
  intros [b|]; [exact I|apply IH].
Qed.

Lemma stage_free_boot : stage_free boot.
Proof.
  unfold boot. simpl. intros [sess|]; [|exact I].
  unfold fetchUserProfile. simpl. intros [[data|] [e|]]; simpl; auto.
Qed.

(** Running such a task sets off no session check, keeps the stage, and
    what remains of it when it suspends is again such a task. *)
Lemma stage_free_run {A} (t : Task A) : forall w s,
  stage_free t ->
  restages t w s = 0 /\
  pendingProfile (final_state (run t w s)) = pendingProfile s /\
  (forall t' s' w' tr, run t w s = Blocked t' s' w' tr -> stage_free t').
Proof.
  induction t as [a|e|op k IH|c k IH]; intros w s Ht; simpl in *.
  - repeat split. discriminate.
  - repeat split. discriminate.
  - assert (Hop : changes_stage op s = false /\ pendingProfile (apply op s) = pendingProfile s /\
                  stage_free k)
      by (destruct op; try contradiction; repeat split; assumption).
    destruct Hop as (Hc & Hp & Hk). rewrite Hc.
    destruct (IH w (apply op s) Hk) as (H0 & H1 & H2).
    split; [exact H0|]. split.
    + rewrite final_state_emit, H1. exact Hp.
    + intros t' s' w' tr E. apply emit_blocked in E as [tr' E]. exact (H2 _ _ _ _ E).
  - destruct (answer c w) as [[r w1]|].
    + destruct (IH r w1 s (Ht r)) as (H0 & H1 & H2).
      split; [exact H0|]. split.
      * rewrite final_state_emit. exact H1.
      * intros t' s' w' tr E. apply emit_blocked in E as [tr' E]. exact (H2 _ _ _ _ E).
    + repeat split. intros t' s' w' tr [= <- _ _ _]. exact Ht.
Qed.

Lemma thread_of_stage_free (t : Task unit) w s :
  stage_free t -> thread_stage_free (thread_of (run t w s)).
Proof.
  intros Ht. destruct (stage_free_run t w s Ht) as (_ & _ & H).
  destruct (run t w s) as [o s' w' tr|t' s' w' tr]; simpl; [exact I|].
  exact (H _ _ _ _ eq_refl).
Qed.

Lemma Forall_put {X} (P : X -> Prop) (x : X) : forall l i,
  Forall P l -> P x -> Forall P (put i x l).
Proof.
  induction l as [|y l IH]; intros i Hl Hx; [destruct i; constructor|].
  inversion Hl as [|? ? Hy Hl']; subst.
  destruct i as [|i]; simpl; constructor; auto.
Qed.

(** A turn in a pool of such threads keeps the stage and the pool. *)
Lemma turn_stage_free i w c :
  Forall thread_stage_free (threads c) ->
  pendingProfile (cells (turn i w c)) = pendingProfile (cells c) /\
  Forall thread_stage_free (threads (turn i w c)).
Proof.
  intros Hpool. unfold turn.
  destruct (nth_error (threads c) i) as [[t|o]|] eqn:En; try (split; [reflexivity|exact Hpool]).
  assert (Ht : stage_free t).
  { apply nth_error_In in En. rewrite Forall_forall in Hpool. exact (Hpool _ En). }
  destruct (stage_free_run t w (cells c) Ht) as (H0 & H1 & _).
  cbn [cells threads]. rewrite H0. simpl. rewrite app_nil_r.
  split; [exact H1|]. apply Forall_put; [exact Hpool|].
  apply thread_of_stage_free, Ht.
Qed.

Lemma play_stage_free sched : forall c,
  Forall thread_stage_free (threads c) ->
  pendingProfile (cells (play sched c)) = pendingProfile (cells c) /\
  Forall thread_stage_free (threads (play sched c)).
Proof.
  induction sched as [|[i w] sched IH]; intros c Hpool; [split; [reflexivity|exact Hpool]|].
  cbn [play]. destruct (turn_stage_free i w c Hpool) as (H1 & H2).
  destruct (IH (turn i w c) H2) as (H3 & H4).
  split; [rewrite H3; exact H1|exact H4].
Qed.

(** ** signUp in the component *)

Lemma signUp_restages name email password w s :
  restages (signUp name email password) w s = 1.
Proof.
  unfold signUp; simpl.
  destruct (signUps w) as [|[[au|] [e|]] q]; simpl; try reflexivity;
    destruct (String.eqb (err_message e) "User already registered"); reflexivity.
Qed.

Lemma signUp_thread_stage_free name email password w s :
  thread_stage_free (thread_of (run (signUp name email password) w s)).
Proof.
  unfold signUp; simpl.
  destruct (signUps w) as [|[[au|] [e|]] q]; simpl;
    try (destruct (String.eqb (err_message e) "User already registered")); simpl; auto.
  intros [[au|] [e|]]; simpl;
    try (destruct (String.eqb (err_message e) "User already registered")); simpl; auto.
Qed.

(** Calling [signUp]: its thread runs to the answer of the identity
    service, the name is staged, and one session check is set off. *)
Lemma signUp_start name email password w c :
  start (signUp name email password) w c =
  mkComponent (mkState (user (cells c)) true (Some (mkPending name)))
    (threads c ++ [thread_of (run (signUp name email password) w (cells c)); Suspended boot])
    (seen c ++ trace_of (run (signUp name email password) w (cells c))).
Proof.
  unfold start. rewrite signUp_restages, signUp_final_state. reflexivity.
Qed.






(** ** The listener in the component *)

(** The run of the listener when the insert succeeds, in terms of the run
    of the retry loop that follows the clearing of the stage. *)
Lemma listener_run_after_insert (p : Pending) (sess : Session) (w : World) (s : State)
    (q : list (option Err)) :
  pendingProfile s = Some p ->
  inserts w = None :: q ->
  run (deliver SIGNED_IN (Some sess) s) w s =
  emit [Called (ProfilesInsert (newProfileRow (auth_id (session_user sess)) p))]
    match run (retryFrom (auth_id (session_user sess)) defaultRetries 0)
              (with_inserts q w) (mkState (user s) (isLoading s) None) with
    | Done (Returned _) s' w' tr => Done (Returned tt) s' w' tr
    | Done (Threw e) s' w' tr =>
        emit tr (run (exec (ConsoleError "Error creating profile:" e) ;;
                      exec (SetIsLoading false)) w' s')
    | Blocked t' s' w' tr =>
        Blocked (try_catch (t' ;; Ret tt)
                   (fun error => exec (ConsoleError "Error creating profile:" error) ;;
                                 exec (SetIsLoading false))) s' w' tr
    end.
Proof.
  intros Hp Ha. unfold deliver, onAuthStateChange. rewrite Hp.
  cbn [is_signed_in]. unfold fetchUserProfileWithRetry.
  remember (retryFrom (auth_id (session_user sess)) defaultRetries 0) as F eqn:EF.
  simpl. rewrite Ha. simpl. f_equal. rewrite run_try_catch, run_bind.
  destruct (run F (with_inserts q w) (mkState (user s) (isLoading s) None))
    as [[b|e] s' w' tr|t' s' w' tr]; simpl; rewrite ?app_nil_r; reflexivity.
Qed.

(** The session checks set off by the listener: one when the insert
    succeeds (the stage is cleared), none otherwise. *)
Lemma listener_restages (p : Pending) (sess : Session) (w : World) (s : State)
    (a : option Err) (q : list (option Err)) :
  pendingProfile s = Some p ->
  inserts w = a :: q ->
  restages (deliver SIGNED_IN (Some sess) s) w s =
  match a with None => 1 | Some _ => 0 end.
Proof.
  intros Hp Ha. unfold deliver, onAuthStateChange. rewrite Hp.
  cbn [is_signed_in]. unfold fetchUserProfileWithRetry.
  pose proof (stage_free_retryFrom (auth_id (session_user sess)) defaultRetries 0) as HF.
  remember (retryFrom (auth_id (session_user sess)) defaultRetries 0) as F eqn:EF.
  simpl. rewrite Ha. destruct a as [e|]; simpl; [reflexivity|].
  rewrite Hp.
  assert (Hfree : stage_free
            (try_catch (F ;; Ret tt)
               (fun error => Do (ConsoleError "Error creating profile:" error)
                               (exec (SetIsLoading false))))).
  { apply stage_free_try_catch; [|intros e; exact I].
    apply stage_free_bind; [exact HF|intros _; exact I]. }
  destruct (stage_free_run _ (with_inserts q w) (mkState (user s) (isLoading s) None) Hfree)
    as (H0 & _).
  rewrite H0. reflexivity.
Qed.

Lemma retryFrom_awaits_lookup userId left i w s :
  selects w = [] ->
  exists k, run (retryFrom userId (S left) i) w s =
            Blocked (Await (ProfilesSelect userId) k) s w [].
Proof.
  intros H. cbn [retryFrom]. unfold retryAttempt. simpl. rewrite H.
  eexists. reflexivity.
Qed.




(** A session check that finds a session looks the profile up once. *)
Lemma boot_run_session (w : World) (s : State) (sess : Session) q a q' :
  sessions w = Some sess :: q -> selects w = a :: q' ->
  exists w' tr,
    run boot w s =
    Done (Returned tt)
      (mkState (if is_miss a then user s else option_map toUser (fst a)) false
               (pendingProfile s)) w' tr /\
    lookups tr = 1.
Proof.
  intros Hs Ha. unfold boot; simpl. rewrite Hs. simpl. rewrite Ha. simpl.
  destruct a as [[data|] [e|]]; simpl; destruct s; eexists; eexists; split; reflexivity.
Qed.

Lemma boot_run_no_session (w : World) (s : State) q :
  sessions w = None :: q ->
  run boot w s =
  Done (Returned tt) (mkState (user s) false (pendingProfile s)) (with_sessions q w)
    [Called GetSession].
Proof.
  intros Hs. unfold boot; simpl. rewrite Hs. reflexivity.
Qed.

Lemma boot_restages w s : restages boot w s = 0.
Proof. exact (proj1 (stage_free_run boot w s stage_free_boot)). Qed.


